(** * Reticle light toggle: a shallow embedding of [mod_reticle_light_toggle.py]

    The module has three stateful components -- the configuration store
    [_ModConfig], the colour controller [_ReticleColorController] and the
    mouse hook [_RightClickHook] -- which talk to objects of the host
    client (crosshair controller, settings core, control-mode classes, the
    disk).  Each Python method becomes a computation in a small
    state/exception/trace monad: the state is the object the method
    mutates, an exception is a [Raise] result, and every call into a host
    object and every log line is appended to the trace. *)

From stdpp Require Import gmap strings list fin_maps.
From Stdlib Require Import ZArith.

Set Warnings "-register-all".
Open Scope string_scope.
Open Scope Z_scope.
Open Scope list_scope.

(** ** Python values *)

(** The values that reach this module: what [json.load] can produce and what
    the configuration fields and the colour setting can hold.  A [dict] is a
    finite map with string keys.  Floating-point numbers are left out. *)
Inductive value :=
| VNone
| VBool (b : bool)
| VInt (n : Z)
| VStr (s : string)
| VList (l : list value)
| VDict (d : gmap string value).

(** Truth value of an object, as [if x], [not x] and [bool(x)] compute it. *)
Definition truthy (v : value) : bool :=
  match v with
  | VNone => false
  | VBool b => b
  | VInt n => negb (n =? 0)%Z
  | VStr s => negb (String.eqb s "")
  | VList l => match l with [] => false | _ => true end
  | VDict d => negb (bool_decide (d = ∅))
  end.

(** [v == k] for an integer constant [k]: an [int] compares by value and a
    [bool] is the integer 0 or 1; no other value of the model equals an
    integer. *)
Definition eq_int (v : value) (k : Z) : bool :=
  match v with
  | VInt n => (n =? k)%Z
  | VBool b => (Z.b2z b =? k)%Z
  | _ => false
  end.

(** ** Results, events and the monad *)

Definition exn := string.

Inductive res (A : Type) :=
| Ok (a : A)
| Raise (e : exn).
Arguments Ok {A} a.
Arguments Raise {A} e.

Definition raised {A} (r : res A) : bool :=
  match r with Ok _ => false | Raise _ => true end.

(** A mouse event object as the hook inspects it: [None] when an attribute
    is absent, and for the method [isButtonDown] the result of calling it. *)
Record MouseEvent := {
  isButtonDown : option (res value);
  button : option value;
  key : option value;
}.

(** Identity of a host function object and of a control-mode instance. *)
Definition fn := nat.
Definition obj := nat.

(** The calls this module makes into host objects; [c_options] is the read
    of the attribute [options] of the settings core, which the [try] block of
    the settings fallback guards like the calls after it. *)
Inductive call :=
| c_makedirs
| c_setOverrideReticleColor (hexColor : value)
| c_setReticleColor (hexColor : value)
| c_options
| c_getSetting
| c_getSystemValue
| c_setSystemValue (values : value)
| c_apply
| c_handleMouseEvent (f : fn) (instance : obj) (event : option MouseEvent).

Inductive event :=
| LOG_NOTE (msg : string)
| LOG_CURRENT_EXCEPTION (msg : string)
| Invoke (c : call) (failed : bool).

Definition M (S A : Type) : Type := S → res A * S * list event.

#[global] Instance M_ret S : MRet (M S) := λ A a s, (Ok a, s, []).

#[global] Instance M_bind S : MBind (M S) := λ A B f m s,
  match m s with
  | (Ok a, s', t) => let '(r, s'', t') := f a s' in (r, s'', t ++ t')
  | (Raise e, s', t) => (Raise e, s', t)
  end.

Section Monad.
Context {S : Type}.

Definition get : M S S := λ s, (Ok s, s, []).
Definition modify (f : S → S) : M S unit := λ s, (Ok tt, f s, []).
Definition emit (e : event) : M S unit := λ s, (Ok tt, s, [e]).
Definition lift {A} (r : res A) : M S A := λ s, (r, s, []).

(** A call into the host whose outcome [r] the environment decides. *)
Definition invoke {A} (c : call) (r : res A) : M S A :=
  λ s, (r, s, [Invoke c (raised r)]).

(** [try: body / except Exception: handler]. *)
Definition try_except {A} (body : M S A) (handler : M S A) : M S A := λ s,
  match body s with
  | (Raise _, s', t) => let '(r, s'', t') := handler s' in (r, s'', t ++ t')
  | done => done
  end.

Fixpoint for_each {A} (l : list A) (body : A → M S unit) : M S unit :=
  match l with
  | [] => mret tt
  | x :: l' => body x ;; for_each l' body
  end.
End Monad.

(** Run a computation on a component [T] of a larger state [S]. *)
Definition zoom {S T A} (proj : S → T) (upd : T → S → S) (m : M T A) : M S A :=
  λ s, let '(r, t', tr) := m (proj s) in (r, upd t' s, tr).

(** ** Configuration store *)

Definition MOD_ID : string := "reticleLightToggle".

(** ['%s: text' % MOD_ID]. *)
Definition msg (text : string) : string := (MOD_ID ++ ": " ++ text)%string.

(** The dictionary of defaults, in the order it is written.  The loops over
    it treat each key on its own, so the order in which the interpreter
    walks the dictionary shows only in which key a failing [load] stops at. *)
Definition DEFAULT_CONFIG : list (string * value) :=
  [ ("enabled", VBool true);
    ("baseColor", VStr "#FFCC00");
    ("alternateColor", VStr "#00FFDE");
    ("startWithAlternateColor", VBool false) ].

(** The instance of [_ModConfig]: one slot per key of [DEFAULT_CONFIG]. *)
Record ModConfig := {
  enabled : value;
  baseColor : value;
  alternateColor : value;
  startWithAlternateColor : value;
}.

Definition getattr (self : ModConfig) (k : string) : value :=
  if String.eqb k "enabled" then enabled self
  else if String.eqb k "baseColor" then baseColor self
  else if String.eqb k "alternateColor" then alternateColor self
  else if String.eqb k "startWithAlternateColor" then startWithAlternateColor self
  else VNone.

Definition setattr (k : string) (v : value) (self : ModConfig) : ModConfig :=
  if String.eqb k "enabled" then
    {| enabled := v; baseColor := baseColor self;
       alternateColor := alternateColor self;
       startWithAlternateColor := startWithAlternateColor self |}
  else if String.eqb k "baseColor" then
    {| enabled := enabled self; baseColor := v;
       alternateColor := alternateColor self;
       startWithAlternateColor := startWithAlternateColor self |}
  else if String.eqb k "alternateColor" then
    {| enabled := enabled self; baseColor := baseColor self;
       alternateColor := v;
       startWithAlternateColor := startWithAlternateColor self |}
  else if String.eqb k "startWithAlternateColor" then
    {| enabled := enabled self; baseColor := baseColor self;
       alternateColor := alternateColor self;
       startWithAlternateColor := v |}
  else self.

(** The file at [CONFIG_PATH].  It is kept as the document a reader gets
    from it: [json.dump] and [json.load] are the interpreter's, and a
    document written by the first is read back by the second. *)
Inductive file :=
| Missing                 (* os.path.isfile(CONFIG_PATH) is false *)
| Unreadable (e : exn)    (* open() or json.load() raises e *)
| Document (data : value). (* json.load() returns data *)

(** What the disk answers during one call of [load] or [save]. *)
Record IO := {
  isdir : bool;           (* os.path.isdir(CONFIG_DIRECTORY) *)
  makedirs : res unit;    (* os.makedirs(CONFIG_DIRECTORY) *)
  open_w : res unit;      (* open(CONFIG_PATH, 'w') *)
  dump : res unit;        (* json.dump(data, fp, ...) *)
}.

Record Store := {
  config : ModConfig;
  disk : file;
}.

Definition on_config (f : ModConfig → ModConfig) (st : Store) : Store :=
  {| config := f (config st); disk := disk st |}.

Definition set_disk (f : file) (st : Store) : Store :=
  {| config := config st; disk := f |}.

Definition _ensureConfigDirectory {S} (io : IO) : M S unit :=
  if isdir io then mret tt
  else
    try_except (invoke c_makedirs (makedirs io))
      (emit (LOG_CURRENT_EXCEPTION (msg "failed to create config directory"))).

(** [needle in hay] for two strings. *)
Fixpoint str_contains (needle hay : string) : bool :=
  String.prefix needle hay ||
  match hay with
  | EmptyString => false
  | String _ hay' => str_contains needle hay'
  end.

(** [k in data] for a string [k]. *)
Definition py_contains (k : string) (data : value) : res bool :=
  match data with
  | VDict d => Ok (match d !! k with Some _ => true | None => false end)
  | VStr s => Ok (str_contains k s)
  | VList l =>
      Ok (existsb (λ v, match v with VStr s => String.eqb s k | _ => false end) l)
  | VNone | VBool _ | VInt _ => Raise "TypeError"
  end.

(** [data[k]] for a string [k]. *)
Definition py_getitem (data : value) (k : string) : res value :=
  match data with
  | VDict d => match d !! k with Some v => Ok v | None => Raise "KeyError" end
  | _ => Raise "TypeError"
  end.

(** [with open(CONFIG_PATH, 'r') as fp: data = json.load(fp)]. *)
Definition read_json (f : file) : res value :=
  match f with
  | Missing => Raise "IOError"
  | Unreadable e => Raise e
  | Document data => Ok data
  end.

(** The [except] clause returns from the method: the [try] statement yields
    [None] there and [Some] of the parsed document otherwise.  The loop over
    the keys comes after the [try] statement. *)
Definition load (io : IO) : M Store unit :=
  _ensureConfigDirectory io ;;
  st ← get;
  match disk st with
  | Missing => mret tt
  | f =>
      parsed ← try_except
                 (data ← lift (read_json f); mret (Some data))
                 (emit (LOG_CURRENT_EXCEPTION (msg "unable to read config, using defaults")) ;;
                  mret None);
      match parsed with
      | None => mret tt
      | Some data =>
          for_each (DEFAULT_CONFIG.*1) (λ k,
            present ← lift (py_contains k data);
            if present : bool then
              v ← lift (py_getitem data k);
              modify (on_config (setattr k v))
            else mret tt)
      end
  end.

(** [{key: getattr(self, key) for key in DEFAULT_CONFIG}]. *)
Definition asDict (self : ModConfig) : gmap string value :=
  list_to_map ((λ k, (k, getattr self k)) <$> DEFAULT_CONFIG.*1).

(** [with open(CONFIG_PATH, 'w') as fp: json.dump(data, fp, ...)].  Opening
    for writing truncates the file, so a dump that fails leaves a strict
    prefix of a document behind, which no reader can parse. *)
Definition write_json (io : IO) (data : value) : M Store unit :=
  lift (open_w io) ;;
  match dump io with
  | Ok _ => modify (set_disk (Document data))
  | Raise e => modify (set_disk (Unreadable "ValueError")) ;; lift (Raise e)
  end.

Definition save (io : IO) : M Store unit :=
  _ensureConfigDirectory io ;;
  st ← get;
  let data := asDict (config st) in
  try_except (write_json io (VDict data))
    (emit (LOG_CURRENT_EXCEPTION (msg "unable to save config"))).

(** [_ModConfig()]: the slots take the defaults, then [load] runs. *)
Definition ModConfig_init (io : IO) : M Store unit :=
  for_each DEFAULT_CONFIG (λ kv, modify (on_config (setattr kv.1 kv.2))) ;;
  load io.

(** ** Colour controller *)

(** The host objects the controller reaches, as they answer during one
    call.  An attribute that [hasattr] does not find is [None]; a method is
    given by the outcome of calling it. *)
Record Crosshair := {
  setOverrideReticleColor : option (value → res unit);
  setReticleColor : option (value → res unit);
}.

(** [sessionProvider.shared] with its attribute [crosshair], [None] when
    [getattr(shared, 'crosshair', None)] is. *)
Record SessionProvider := {
  crosshair : option Crosshair;
}.

Record ColorSetting := {
  getSystemValue : res value;
  setSystemValue : value → res unit;
  apply : res unit;
}.

Record Options := {
  getSetting : res (option ColorSetting);
}.

Record SettingsCore := {
  options : res (option Options);
}.

Record Env := {
  sessionProvider : option SessionProvider;
  settingsCore : option SettingsCore;
}.

Record Controller := {
  _config : ModConfig;
  _useAlternate : bool;
  _isInstalled : bool;
  _pendingUpdate : bool;
}.

Definition set_config (c : ModConfig) (self : Controller) : Controller :=
  {| _config := c; _useAlternate := _useAlternate self;
     _isInstalled := _isInstalled self; _pendingUpdate := _pendingUpdate self |}.

Definition set_useAlternate (b : bool) (self : Controller) : Controller :=
  {| _config := _config self; _useAlternate := b;
     _isInstalled := _isInstalled self; _pendingUpdate := _pendingUpdate self |}.

Definition set_isInstalled (b : bool) (self : Controller) : Controller :=
  {| _config := _config self; _useAlternate := _useAlternate self;
     _isInstalled := b; _pendingUpdate := _pendingUpdate self |}.

Definition set_pendingUpdate (b : bool) (self : Controller) : Controller :=
  {| _config := _config self; _useAlternate := _useAlternate self;
     _isInstalled := _isInstalled self; _pendingUpdate := b |}.

(** [_ReticleColorController(config)]. *)
Definition Controller_init (cfg : ModConfig) : Controller :=
  {| _config := cfg;
     _useAlternate := truthy (startWithAlternateColor cfg);
     _isInstalled := false;
     _pendingUpdate := false |}.

(** ['%s' % b] for a [bool]. *)
Definition str_bool (b : bool) : string := if b then "True" else "False".

Module ReticleColorController.
Section Methods.
Variable env : Env.

(** The loop [for key in values: values[key] = hexColor] rewrites the
    mapping that [getSystemValue] returned; the mapping handed to
    [setSystemValue] is that rewritten one. *)
Definition _applyThroughSettings (hexColor : value) : M Controller bool :=
  try_except
    (match settingsCore env with
     | None => mret false
     | Some core =>
         opts ← invoke c_options (options core);
         match opts with
         | None => mret false
         | Some opts =>
             colorSetting ← invoke c_getSetting (getSetting opts);
             match colorSetting with
             | None => mret false
             | Some colorSetting =>
                 values ← invoke c_getSystemValue (getSystemValue colorSetting);
                 let values :=
                   match values with
                   | VDict d => VDict (const hexColor <$> d)
                   | other => other
                   end in
                 invoke (c_setSystemValue values) (setSystemValue colorSetting values) ;;
                 invoke c_apply (apply colorSetting) ;;
                 mret true
             end
         end
     end)
    (emit (LOG_CURRENT_EXCEPTION (msg "unable to write color through settings core")) ;;
     mret false).

(** The [try] block returns from the method when one of the two calls
    went through: the block yields [Some] of the value returned, and
    [None] when control falls out of it to the fallback. *)
Definition _applyGunMarkerColor (hexColor : value) : M Controller bool :=
  let controller :=
    match sessionProvider env with
    | Some provider => crosshair provider
    | None => None
    end in
  returned ←
    match controller with
    | Some controller =>
        try_except
          (match setOverrideReticleColor controller with
           | Some method =>
               invoke (c_setOverrideReticleColor hexColor) (method hexColor) ;;
               mret (Some true)
           | None =>
               match setReticleColor controller with
               | Some method =>
                   invoke (c_setReticleColor hexColor) (method hexColor) ;;
                   mret (Some true)
               | None => mret None
               end
           end)
          (emit (LOG_CURRENT_EXCEPTION
                   (msg "failed to apply color through crosshair controller")) ;;
           mret None)
    | None => mret None
    end;
  match returned with
  | Some result => mret result
  | None => _applyThroughSettings hexColor
  end.

Definition applyCurrentColor : M Controller unit :=
  self ← get;
  let color :=
    if _useAlternate self then alternateColor (_config self)
    else baseColor (_config self) in
  applied ← _applyGunMarkerColor color;
  if applied : bool then modify (set_pendingUpdate false)
  else
    modify (set_pendingUpdate true) ;;
    emit (LOG_NOTE (msg "gun marker controller not ready, defer color update")).

Definition install : M Controller unit :=
  self ← get;
  if _isInstalled self then mret tt
  else
    modify (set_isInstalled true) ;;
    self ← get;
    if truthy (enabled (_config self)) then applyCurrentColor else mret tt.

Definition uninstall : M Controller unit :=
  modify (set_isInstalled false).

Definition toggle : M Controller unit :=
  self ← get;
  if negb (truthy (enabled (_config self))) then mret tt
  else
    modify (set_useAlternate (negb (_useAlternate self))) ;;
    self ← get;
    emit (LOG_NOTE (msg ("toggled reticle color (alternate="
                         ++ str_bool (_useAlternate self) ++ ")")%string)) ;;
    applyCurrentColor.

Definition refreshFromConfig (cfg : ModConfig) : M Controller unit :=
  modify (set_config cfg) ;;
  modify (set_useAlternate (truthy (startWithAlternateColor cfg))) ;;
  applyCurrentColor.

Definition onAvatarReady : M Controller unit :=
  self ← get;
  if _pendingUpdate self then applyCurrentColor else mret tt.
End Methods.
End ReticleColorController.

(** ** Right-click hook *)

(** Identity of a control-mode class. *)
Definition cls := nat.

(** A function object found in the attribute [handleMouseEvent] of a class:
    a function of the host, or a closure made by [makeWrapper], whose
    attribute [__original__] is the method it closes over. *)
Inductive method :=
| Native (f : fn)
| Wrapper (original : method).

(** [getattr(handler, '__original__', None)]. *)
Definition __original__ (handler : method) : option method :=
  match handler with
  | Native _ => None
  | Wrapper original => Some original
  end.

(** The hook, the classes it patches and the controller behind its weak
    reference, [None] once that controller has been collected.  For each
    class, [handleMouseEvent] is the attribute in the dictionary of the
    class itself; what reading the attribute on the class gives follows the
    method resolution order (see [resolve]). *)
Record World := {
  __patchedClasses : list cls;
  handleMouseEvent : gmap cls method;
  __controllerRef : option Controller;
}.

Definition set_patchedClasses (l : list cls) (w : World) : World :=
  {| __patchedClasses := l; handleMouseEvent := handleMouseEvent w;
     __controllerRef := __controllerRef w |}.

Definition set_handleMouseEvent (c : cls) (m : method) (w : World) : World :=
  {| __patchedClasses := __patchedClasses w;
     handleMouseEvent := <[c := m]> (handleMouseEvent w);
     __controllerRef := __controllerRef w |}.

Definition set_controllerRef (c : option Controller) (w : World) : World :=
  {| __patchedClasses := __patchedClasses w;
     handleMouseEvent := handleMouseEvent w;
     __controllerRef := c |}.

Module RightClickHook.
Section Methods.
(** [Keys.KEY_RIGHTMOUSE], a constant of the host. *)
Variable KEY_RIGHTMOUSE : Z.
(** [getattr(control_modes, name, None)]. *)
Variable control_modes : string → option cls.
(** What a function of the host returns or raises when called. *)
Variable native : fn → obj → option MouseEvent → res value.
Variable env : Env.
(** The classes that come after a class in its method resolution order. *)
Variable ancestors : cls → list cls.

(** [getattr(c, 'handleMouseEvent', None)] on a class: the attribute of the
    first class in the resolution order of [c] whose dictionary has it.
    [hasattr] holds when this is not [None]; an assignment to the attribute
    writes the dictionary of [c] itself. *)
Definition resolve (w : World) (c : cls) : option method :=
  head (omap (λ a, handleMouseEvent w !! a) (c :: ancestors c)).

Definition __shouldToggle {S} (event : option MouseEvent) : M S bool :=
  try_except
    (match event with
     | None => mret false
     | Some ev =>
         match isButtonDown ev with
         | Some result =>
             down ← lift result;
             if truthy down then
               let k := default (default VNone (key ev)) (button ev) in
               mret (eq_int k KEY_RIGHTMOUSE)
             else mret false
         | None => mret false
         end
     end)
    (emit (LOG_CURRENT_EXCEPTION (msg "error while processing mouse event")) ;;
     mret false).

(** [m(instance, event)].  For a wrapper this is the body of [wrapper];
    it yields [Some] of the value it returns early and [None] when it goes
    on to [return method(instance, event)]. *)
Fixpoint call_method (m : method) (instance : obj) (event : option MouseEvent)
  : M World value :=
  match m with
  | Native f => invoke (c_handleMouseEvent f instance event) (native f instance event)
  | Wrapper method =>
      should ← __shouldToggle event;
      returned ←
        (if should : bool then
           w ← get;
           match __controllerRef w with
           | Some controller =>
               zoom (λ _, controller) (λ c, set_controllerRef (Some c))
                 (ReticleColorController.toggle env) ;;
               mret (Some (VBool true))
           | None => mret None
           end
         else mret None);
      match returned with
      | Some result => mret result
      | None => call_method method instance event
      end
  end.

Definition NAMES : list string :=
  ["ArcadeControlMode"; "SniperControlMode"; "StrategicControlMode";
   "DualGunControlMode"].

Definition install : M World unit :=
  let classes := omap control_modes NAMES in
  for_each classes (λ c,
    w ← get;
    match resolve w c with
    | Some original =>
        if bool_decide (c ∈ __patchedClasses w) then mret tt
        else
          modify (set_handleMouseEvent c (Wrapper original)) ;;
          modify (λ w, set_patchedClasses (__patchedClasses w ++ [c]) w)
    | None => mret tt
    end).

Definition uninstall : M World unit :=
  w ← get;
  for_each (__patchedClasses w) (λ c,
    w ← get;
    match resolve w c with
    | Some handler =>
        match __original__ handler with
        | Some original => modify (set_handleMouseEvent c original)
        | None => mret tt
        end
    | None => mret tt
    end) ;;
  modify (set_patchedClasses []).

(** The host calls [handleMouseEvent] on an instance of class [c]. *)
Definition dispatch (c : cls) (instance : obj) (event : option MouseEvent)
  : M World value :=
  w ← get;
  match resolve w c with
  | Some m => call_method m instance event
  | None => lift (Raise "AttributeError")
  end.
End Methods.
End RightClickHook.


(** ** Entry point *)

(** The instance of [_ModEntryPoint] as far as the settings bridge goes:
    [self._config] with the disk behind it, and [self._controller].  The
    controller's [_config] is the very object [self._config] names, so a
    [setattr] on it shows through both fields. *)
Record EntryPoint := {
  _store : Store;
  _controller : Controller;
}.

Definition set_store (st : Store) (self : EntryPoint) : EntryPoint :=
  {| _store := st; _controller := _controller self |}.

Definition set_controller (c : Controller) (self : EntryPoint) : EntryPoint :=
  {| _store := _store self; _controller := c |}.

(** [setattr(self._config, k, v)] on the shared configuration object. *)
Definition setattr_shared (k : string) (v : value) (self : EntryPoint) : EntryPoint :=
  {| _store := on_config (setattr k v) (_store self);
     _controller :=
       set_config (setattr k v (_config (_controller self))) (_controller self) |}.

Module ModEntryPoint.
Section Methods.
Variable io : IO.
Variable env : Env.

Definition __onSettingsChanged (data : value) : M EntryPoint unit :=
  match data with
  | VDict _ =>
      for_each (DEFAULT_CONFIG.*1) (λ k,
        present ← lift (py_contains k data);
        if present : bool then
          v ← lift (py_getitem data k);
          modify (setattr_shared k v)
        else mret tt) ;;
      zoom _store set_store (save io) ;;
      self ← get;
      zoom _controller set_controller
        (ReticleColorController.refreshFromConfig env (config (_store self)))
  | _ => mret tt
  end.

Definition __onAvatarReady : M EntryPoint unit :=
  zoom _controller set_controller (ReticleColorController.onAvatarReady env).
End Methods.
End ModEntryPoint.
(** * Vocabulary of the properties *)

(** The three components of a run: what it returned or raised, the state it
    left, and the calls and log lines it made. *)
Definition result {S A} (x : res A * S * list event) : res A := x.1.1.
Definition final {S A} (x : res A * S * list event) : S := x.1.2.
Definition trace {S A} (x : res A * S * list event) : list event := x.2.

(** The colour [applyCurrentColor] picks in state [self]. *)
Definition currentColor (self : Controller) : value :=
  if _useAlternate self then alternateColor (_config self)
  else baseColor (_config self).

(** The note [applyCurrentColor] logs when no strategy went through. *)
Definition deferred : list event :=
  [LOG_NOTE (msg "gun marker controller not ready, defer color update")].

(** The controller after the flip of [toggle], and the note logged there. *)
Definition toggled (self : Controller) : Controller :=
  set_useAlternate (negb (_useAlternate self)) self.

Definition toggle_note (alt : bool) : event :=
  LOG_NOTE (msg ("toggled reticle color (alternate=" ++ str_bool alt ++ ")")%string).

(** One [toggle()] under each environment of [envs], in order. *)
Definition toggles (envs : list Env) : M Controller unit :=
  for_each envs ReticleColorController.toggle.

(** ** Sample objects, to run the code on concrete inputs *)

Definition sample_config : ModConfig :=
  {| enabled := VBool true; baseColor := VStr "#FFCC00";
     alternateColor := VStr "#00FFDE"; startWithAlternateColor := VBool false |}.

Definition disabled_config : ModConfig :=
  {| enabled := VBool false; baseColor := VStr "#FFCC00";
     alternateColor := VStr "#00FFDE"; startWithAlternateColor := VBool false |}.

Definition working (_ : value) : res unit := Ok tt.
Definition failing (_ : value) : res unit := Raise "RuntimeError".

(** Nothing reachable: no session provider, no settings core. *)
Definition bare_env : Env := {| sessionProvider := None; settingsCore := None |}.

Definition env_with (c : option Crosshair) (s : option SettingsCore) : Env :=
  {| sessionProvider := Some {| crosshair := c |}; settingsCore := s |}.

(** A settings core whose colour setting holds [v] and accepts writes. *)
Definition setting_holding (v : value) : ColorSetting :=
  {| getSystemValue := Ok v; setSystemValue := working; apply := Ok tt |}.

Definition settings_holding (v : value) : SettingsCore :=
  {| options := Ok (Some {| getSetting := Ok (Some (setting_holding v)) |}) |}.

(** The crosshair controller [_applyGunMarkerColor] finds, if any. *)
Definition reticle_controller (env : Env) : option Crosshair :=
  match sessionProvider env with
  | Some provider => crosshair provider
  | None => None
  end.

(** Which strategy of the backend chain a call belongs to. *)
Definition crosshair_call (c : call) : bool :=
  match c with
  | c_setOverrideReticleColor _ | c_setReticleColor _ => true
  | _ => false
  end.

Definition crosshair_event (e : event) : bool :=
  match e with
  | Invoke k _ => crosshair_call k
  | _ => false
  end.

Definition strategy2 (e : event) : bool :=
  match e with
  | Invoke (c_setReticleColor _) _ => true
  | _ => false
  end.

Definition strategy3 (e : event) : bool :=
  match e with
  | Invoke (c_options | c_getSetting | c_getSystemValue
           | c_setSystemValue _ | c_apply) _ => true
  | _ => false
  end.

(** The log lines of the two [except] clauses of the chain. *)
Definition crosshair_failure : event :=
  LOG_CURRENT_EXCEPTION (msg "failed to apply color through crosshair controller").

Definition settings_failure : event :=
  LOG_CURRENT_EXCEPTION (msg "unable to write color through settings core").

(** The calls of a settings fallback that goes through, writing [v]. *)
Definition settings_calls (v : value) : list event :=
  [Invoke c_options false; Invoke c_getSetting false;
   Invoke c_getSystemValue false; Invoke (c_setSystemValue v) false;
   Invoke c_apply false].

(** A crosshair controller with both colour methods, the modern one
    raising. *)
Definition modern_raises : Crosshair :=
  {| setOverrideReticleColor := Some failing; setReticleColor := Some working |}.

Definition modern_works : Crosshair :=
  {| setOverrideReticleColor := Some working; setReticleColor := Some working |}.

(** ** Right-click hook *)

(** A call of a function of the host as a mouse handler. *)
Definition handler_call (e : event) : bool :=
  match e with
  | Invoke (c_handleMouseEvent _ _ _) _ => true
  | _ => false
  end.

(** The classification of §4.3, in the words of the specification: the
    event is not null, reports itself as a button-down event, and its
    button (or, failing that, key) identifier equals the toggle button. *)
Definition is_press (toggle_button : Z) (event : option MouseEvent) : bool :=
  match event with
  | Some ev =>
      match isButtonDown ev with
      | Some (Ok down) =>
          truthy down &&
          eq_int (default (default VNone (key ev)) (button ev)) toggle_button
      | _ => false
      end
  | None => false
  end.

(** The log line of an inspection that raised, if it did. *)
Definition inspection_log (e : option MouseEvent) : list event :=
  match e with
  | Some ev =>
      match isButtonDown ev with
      | Some (Raise _) =>
          [LOG_CURRENT_EXCEPTION (msg "error while processing mouse event")]
      | _ => []
      end
  | None => []
  end.




(** The bodies of the loops of [install()] and [uninstall()]. *)
Definition install_step (ancestors : cls → list cls) (c : cls) : M World unit :=
  w ← get;
  match RightClickHook.resolve ancestors w c with
  | Some original =>
      if bool_decide (c ∈ __patchedClasses w) then mret tt
      else
        modify (set_handleMouseEvent c (Wrapper original)) ;;
        modify (λ w, set_patchedClasses (__patchedClasses w ++ [c]) w)
  | None => mret tt
  end.

Definition uninstall_step (ancestors : cls → list cls) (c : cls) : M World unit :=
  w ← get;
  match RightClickHook.resolve ancestors w c with
  | Some handler =>
      match __original__ handler with
      | Some original => modify (set_handleMouseEvent c original)
      | None => mret tt
      end
  | None => mret tt
  end.

(** A resolution order as the interpreter builds it: the order of a class
    contains the order of each class in it. *)
Definition closed_order (ancestors : cls → list cls) : Prop :=
  ∀ c a, a ∈ ancestors c → ∀ b, b ∈ ancestors a → b ∈ ancestors c.

(** Classes that inherit nothing. *)
Definition no_ancestors (c : cls) : list cls := [].

(** Sample world: two classes named by the host, a third class unnamed, and
    a live controller. *)
Definition sample_world : World :=
  {| __patchedClasses := [];
     handleMouseEvent := <[1%nat := Native 10%nat]> (<[2%nat := Native 20%nat]>
                           (<[3%nat := Native 30%nat]> ∅));
     __controllerRef := Some (Controller_init sample_config) |}.

Definition sample_modes (name : string) : option cls :=
  if String.eqb name "ArcadeControlMode" then Some 1%nat
  else if String.eqb name "SniperControlMode" then Some 2%nat
  else if String.eqb name "DualGunControlMode" then Some 2%nat
  else None.

(** ** Configuration store *)

(** The defaults as an instance: the slots right after the loop of
    [__init__]. *)
Definition defaults : ModConfig :=
  {| enabled := VBool true; baseColor := VStr "#FFCC00";
     alternateColor := VStr "#00FFDE"; startWithAlternateColor := VBool false |}.

(** The keys [load] and [save] recognise. *)
Definition KEYS : list string := DEFAULT_CONFIG.*1.

(** [base] with the recognised keys present in [d] laid over it. *)
Definition overlay (d : gmap string value) (base : ModConfig) : ModConfig :=
  {| enabled := default (enabled base) (d !! "enabled");
     baseColor := default (baseColor base) (d !! "baseColor");
     alternateColor := default (alternateColor base) (d !! "alternateColor");
     startWithAlternateColor :=
       default (startWithAlternateColor base) (d !! "startWithAlternateColor") |}.

(** The trace of [_ensureConfigDirectory] under [io]. *)
Definition directory_trace (io : IO) : list event :=
  if isdir io then []
  else
    match makedirs io with
    | Ok _ => [Invoke c_makedirs false]
    | Raise _ =>
        [Invoke c_makedirs true;
         LOG_CURRENT_EXCEPTION (msg "failed to create config directory")]
    end.

(** A disk that does what it is asked. *)
Definition good_io : IO :=
  {| isdir := true; makedirs := Ok tt; open_w := Ok tt; dump := Ok tt |}.

(** A document with every recognised key but [baseColor], and one key that
    is not recognised. *)
Definition partial_document : gmap string value :=
  <["enabled" := VBool false]> (<["alternateColor" := VStr "#112233"]>
    (<["startWithAlternateColor" := VBool true]> (<["theme" := VStr "dark"]> ∅))).

(** A crosshair controller of an old client: the legacy method only. *)
Definition legacy_only : Crosshair :=
  {| setOverrideReticleColor := None; setReticleColor := Some working |}.

(** A press of the right mouse button, a release of it, and a press of the
    left one, with [Keys.KEY_RIGHTMOUSE = 257]. *)
Definition right_down : MouseEvent :=
  {| isButtonDown := Some (Ok (VBool true)); button := None; key := Some (VInt 257) |}.

Definition right_up : MouseEvent :=
  {| isButtonDown := Some (Ok (VBool false)); button := None; key := Some (VInt 257) |}.

Definition left_down : MouseEvent :=
  {| isButtonDown := Some (Ok (VBool true)); button := None; key := Some (VInt 256) |}.

(** A host in which the dual-gun mode (class 4) inherits its handler from
    the sniper mode (class 2) and has none of its own. *)
Definition family_world : World :=
  {| __patchedClasses := [];
     handleMouseEvent := <[1%nat := Native 10%nat]> (<[2%nat := Native 20%nat]> ∅);
     __controllerRef := Some (Controller_init sample_config) |}.

Definition family_modes (name : string) : option cls :=
  if String.eqb name "ArcadeControlMode" then Some 1%nat
  else if String.eqb name "SniperControlMode" then Some 2%nat
  else if String.eqb name "DualGunControlMode" then Some 4%nat
  else None.

Definition family_ancestors (c : cls) : list cls :=
  if Nat.eqb c 4 then [2%nat] else [].

(** ** Further vocabulary *)

(** The log lines of the two [except] clauses of the store. *)
Definition save_failure : event :=
  LOG_CURRENT_EXCEPTION (msg "unable to save config").

Definition read_failure : event :=
  LOG_CURRENT_EXCEPTION (msg "unable to read config, using defaults").

(** A call that has pushed a colour into the session when it returns: one of
    the two crosshair methods, or [apply()] of the colour setting. *)
Definition completes (e : event) : bool :=
  match e with
  | Invoke (c_setOverrideReticleColor _ | c_setReticleColor _ | c_apply) false => true
  | _ => false
  end.

(** The function of the host at the bottom of a stack of wrappers, and the
    height of the stack. *)
Fixpoint innermost (m : method) : fn :=
  match m with
  | Native f => f
  | Wrapper original => innermost original
  end.

Fixpoint depth (m : method) : nat :=
  match m with
  | Native _ => 0%nat
  | Wrapper original => S (depth original)
  end.

(** A press of the right button whose controller is still there. *)
Definition intercepted (toggle_button : Z) (event : option MouseEvent) (w : World)
  : bool :=
  is_press toggle_button event && bool_decide (is_Some (__controllerRef w)).

(** A crosshair controller whose legacy method raises. *)
Definition legacy_raises : Crosshair :=
  {| setOverrideReticleColor := None; setReticleColor := Some failing |}.

(** A disk on which the file can be opened but the dump fails, and one on
    which the file cannot be opened. *)
Definition dump_fails_io : IO :=
  {| isdir := true; makedirs := Ok tt; open_w := Ok tt; dump := Raise "IOError" |}.

Definition open_fails_io : IO :=
  {| isdir := false; makedirs := Raise "OSError"; open_w := Raise "IOError";
     dump := Ok tt |}.

(** The sample entry point: the slots of [sample_config], no file yet. *)
Definition sample_entry : EntryPoint :=
  {| _store := {| config := sample_config; disk := Missing |};
     _controller := Controller_init sample_config |}.

(** A handler with one layer of wrapping taken off, if it has one. *)
Definition strip (m : method) : method := default m (__original__ m).

(** The classes the host names under the four control-mode names. *)
Definition named_classes (control_modes : string → option cls) : list cls :=
  omap control_modes RightClickHook.NAMES.

(** * Properties *)

Ltac unfold_monad :=
  unfold mbind, M_bind, mret, M_ret, get, modify, emit, lift, invoke,
    try_except, zoom in *.

(** Case analysis on every host answer the goal still branches on. *)
Ltac case_answers :=
  repeat (match goal with
          | |- context [match ?x with _ => _ end] =>
              lazymatch x with
              | context [match _ with _ => _ end] => fail
              | _ => destruct x
              end
          end; simpl).

Lemma bind_ok {S A B} (m : M S A) (f : A → M S B) s a s' t :
  m s = (Ok a, s', t) →
  (m ≫= f) s = let '(r, s'', t') := f a s' in (r, s'', t ++ t').
Proof. intros H. unfold mbind, M_bind. by rewrite H. Qed.

(** ** Colour controller *)

Section ControllerProperties.
Import ReticleColorController.

Lemma _applyThroughSettings_total env hexColor self :
  ∃ b tr, _applyThroughSettings env hexColor self = (Ok b, self, tr).
Proof.
  unfold _applyThroughSettings. unfold_monad.
  destruct (settingsCore env) as [core|]; [|by eauto].
  destruct (options core) as [[opts|]|]; simpl; [|by eauto..].
  destruct (getSetting opts) as [[cs|]|]; simpl; [|by eauto..].
  destruct (getSystemValue cs) as [v|]; simpl; [|by eauto].
  destruct (setSystemValue cs _) as [[]|]; simpl; [|by eauto].
  destruct (apply cs) as [[]|]; simpl; by eauto.
Qed.

Lemma _applyGunMarkerColor_total env hexColor self :
  ∃ b tr, _applyGunMarkerColor env hexColor self = (Ok b, self, tr).
Proof.
  destruct (_applyThroughSettings_total env hexColor self) as (b & tr & Hs).
  unfold _applyGunMarkerColor. unfold_monad.
  destruct (sessionProvider env) as [p|]; [destruct (crosshair p) as [c|]|].
  - destruct (setOverrideReticleColor c) as [m|].
    + destruct (m hexColor) as [[]|]; simpl; [by eauto|]. rewrite Hs. by eauto.
    + destruct (setReticleColor c) as [m|]; simpl.
      * destruct (m hexColor) as [[]|]; simpl; [by eauto|]. rewrite Hs. by eauto.
      * rewrite Hs. by eauto.
  - rewrite Hs. by eauto.
  - rewrite Hs. by eauto.
Qed.

(** The verdict of the backend chain does not depend on the controller. *)
Lemma _applyGunMarkerColor_state env hexColor self self' b tr :
  _applyGunMarkerColor env hexColor self = (Ok b, self, tr) →
  _applyGunMarkerColor env hexColor self' = (Ok b, self', tr).
Proof.
  destruct (_applyGunMarkerColor_total env hexColor self') as (b' & tr' & H').
  intros H. rewrite H'.
  assert (result (_applyGunMarkerColor env hexColor self) =
          result (_applyGunMarkerColor env hexColor self') ∧
          trace (_applyGunMarkerColor env hexColor self) =
          trace (_applyGunMarkerColor env hexColor self')) as [Hr Ht].
  { clear. unfold _applyGunMarkerColor, _applyThroughSettings. unfold_monad.
    case_answers; done. }
  rewrite H, H' in Hr, Ht. simpl in Hr, Ht. by simplify_eq.
Qed.

Lemma applyCurrentColor_eq env self b tr :
  _applyGunMarkerColor env (currentColor self) self = (Ok b, self, tr) →
  applyCurrentColor env self =
    (Ok tt, set_pendingUpdate (negb b) self, tr ++ if b then [] else deferred).
Proof.
  intros H. unfold applyCurrentColor. unfold currentColor in H.
  unfold_monad. simpl. rewrite H. destruct b; simpl; by rewrite ?app_nil_r.
Qed.

(** An apply attempt always leaves a mark: a call or the deferral note. *)
Lemma applyCurrentColor_trace env self : trace (applyCurrentColor env self) ≠ [].
Proof.
  destruct (_applyGunMarkerColor_total env (currentColor self) self)
    as (b & tr & H).
  rewrite (applyCurrentColor_eq _ _ _ _ H). unfold trace; simpl.
  destruct b; [|by destruct tr].
  rewrite app_nil_r. intros ->. revert H.
  unfold _applyGunMarkerColor, _applyThroughSettings. unfold_monad.
  case_answers; intros; simplify_eq.
Qed.

Lemma toggle_enabled env self b tr :
  truthy (enabled (_config self)) = true →
  _applyGunMarkerColor env (currentColor (toggled self)) (toggled self)
    = (Ok b, toggled self, tr) →
  toggle env self =
    (Ok tt, set_pendingUpdate (negb b) (toggled self),
     toggle_note (negb (_useAlternate self)) :: tr ++ if b then [] else deferred).
Proof.
  intros He H. apply applyCurrentColor_eq in H.
  unfold toggle. unfold_monad. rewrite He. simpl.
  fold (toggled self). unfold_monad. by rewrite H.
Qed.


(** Solve [t = pre ++ e :: post] for a trace [t] known up to its tail. *)
Ltac split_trace :=
  repeat match goal with
         | H : _ = ?pre ++ _ :: _ |- _ =>
             destruct pre; simpl in H; simplify_eq
         end.

Lemma _applyThroughSettings_raised env hexColor self pre c post :
  trace (_applyThroughSettings env hexColor self) = pre ++ Invoke c true :: post →
  crosshair_call c = false ∧ post = [settings_failure] ∧
  result (_applyThroughSettings env hexColor self) = Ok false.
Proof.
  unfold _applyThroughSettings, trace, result. unfold_monad.
  case_answers; intros H; split_trace; done.
Qed.


Lemma _applyThroughSettings_no_crosshair env hexColor self :
  existsb crosshair_event (trace (_applyThroughSettings env hexColor self)) = false.
Proof.
  unfold _applyThroughSettings, trace. unfold_monad. case_answers; done.
Qed.

(** The ways through [_applyGunMarkerColor]. *)
Lemma _applyGunMarkerColor_fallback env hexColor self :
  match reticle_controller env with
  | None => True
  | Some c => setOverrideReticleColor c = None ∧ setReticleColor c = None
  end →
  _applyGunMarkerColor env hexColor self = _applyThroughSettings env hexColor self.
Proof.
  unfold _applyGunMarkerColor, reticle_controller. unfold_monad.
  destruct (sessionProvider env) as [p|]; [destruct (crosshair p) as [c|]|];
    [intros [-> ->]|intros _..]; simpl;
    by destruct (_applyThroughSettings _ _ _) as [[??]?].
Qed.

Lemma _applyGunMarkerColor_call env hexColor self c m k :
  reticle_controller env = Some c →
  (setOverrideReticleColor c = Some m ∧ k = c_setOverrideReticleColor hexColor) ∨
  (setOverrideReticleColor c = None ∧ setReticleColor c = Some m ∧
   k = c_setReticleColor hexColor) →
  _applyGunMarkerColor env hexColor self =
    match m hexColor with
    | Ok _ => (Ok true, self, [Invoke k false])
    | Raise _ =>
        let '(r, s, t) := _applyThroughSettings env hexColor self in
        (r, s, Invoke k true :: crosshair_failure :: t)
    end.
Proof.
  unfold _applyGunMarkerColor, reticle_controller. unfold_monad.
  destruct (sessionProvider env) as [p|]; [|done].
  intros -> [[-> ->]|(-> & -> & ->)];
    destruct (m hexColor) as [[]|]; simpl; try done;
    by destruct (_applyThroughSettings _ _ _) as [[??]?].
Qed.

(** C3 (as amended).  When the crosshair controller is reachable and has the
    modern method, that method is the first call of the attempt and the
    legacy method is never called; and when the modern call returns, it is
    the only call made and the attempt succeeds, so the settings fallback is
    not entered. *)
Theorem strategy1_priority env hexColor self c m :
  reticle_controller env = Some c →
  setOverrideReticleColor c = Some m →
  (∃ tr, trace (_applyGunMarkerColor env hexColor self)
         = Invoke (c_setOverrideReticleColor hexColor) (raised (m hexColor)) :: tr) ∧
  existsb strategy2 (trace (_applyGunMarkerColor env hexColor self)) = false ∧
  (raised (m hexColor) = false →
   _applyGunMarkerColor env hexColor self
   = (Ok true, self, [Invoke (c_setOverrideReticleColor hexColor) false])).
Proof.
  intros Hc Hm.
  rewrite (_applyGunMarkerColor_call env hexColor self c m
             (c_setOverrideReticleColor hexColor) Hc) by (left; done).
  destruct (m hexColor) as [[]|e]; simpl.
  { unfold trace; simpl. eauto. }
  split; [|split; [|done]].
  - destruct (_applyThroughSettings _ _ _) as [[??]?]. unfold trace; simpl. eauto.
  - unfold _applyThroughSettings, trace. unfold_monad. case_answers; done.
Qed.

Lemma strategy1_priority_witness :
  reticle_controller (env_with (Some modern_works) (Some (settings_holding VNone)))
    = Some modern_works ∧
  _applyGunMarkerColor
    (env_with (Some modern_works) (Some (settings_holding VNone)))
    (VStr "#00FFDE") (Controller_init sample_config)
  = (Ok true, Controller_init sample_config,
     [Invoke (c_setOverrideReticleColor (VStr "#00FFDE")) false]).
Proof.
  split; [reflexivity|].
  apply (strategy1_priority
           (env_with (Some modern_works) (Some (settings_holding VNone)))
           (VStr "#00FFDE") (Controller_init sample_config)
           modern_works working eq_refl eq_refl).
  reflexivity.
Defined.

(** C3 fails as stated: here the modern method is there and is called, it
    raises, and the attempt goes on into the settings fallback, which makes
    all five of its calls. *)
Lemma strategy1_priority_counterexample :
  reticle_controller (env_with (Some modern_raises) (Some (settings_holding VNone)))
    = Some modern_raises ∧
  is_Some (setOverrideReticleColor modern_raises) ∧
  _applyGunMarkerColor
    (env_with (Some modern_raises) (Some (settings_holding VNone)))
    (VStr "#00FFDE") (Controller_init sample_config)
  = (Ok true, Controller_init sample_config,
     Invoke (c_setOverrideReticleColor (VStr "#00FFDE")) true
       :: crosshair_failure :: settings_calls VNone) ∧
  existsb strategy3
    (trace (_applyGunMarkerColor
              (env_with (Some modern_raises) (Some (settings_holding VNone)))
              (VStr "#00FFDE") (Controller_init sample_config))) = true.
Proof. repeat split; by eauto. Qed.

(** C1 (as amended).  Whenever a call of the backend chain raises, the
    attempt still returns a verdict, and the very next entry of the trace is
    the log line of the enclosing [except] clause.  If the call was one on
    the crosshair controller (modern or legacy), it was the first call, and
    what follows the log line is one whole run of the settings fallback,
    whose verdict is the verdict of the attempt; no further call is made on
    the crosshair controller, so the legacy method is not tried after the
    modern one raised.  If the call was one of the settings fallback,
    nothing follows the log line and the verdict is failure. *)
Theorem backend_exception_caught env hexColor self pre c post :
  trace (_applyGunMarkerColor env hexColor self) = pre ++ Invoke c true :: post →
  ∃ b, result (_applyGunMarkerColor env hexColor self) = Ok b ∧
    if crosshair_call c then
      pre = [] ∧
      post = crosshair_failure :: trace (_applyThroughSettings env hexColor self) ∧
      result (_applyThroughSettings env hexColor self) = Ok b ∧
      existsb crosshair_event post = false
    else
      post = [settings_failure] ∧ b = false.
Proof.
  destruct (_applyThroughSettings_total env hexColor self) as (b3 & t3 & H3).
  pose proof (_applyThroughSettings_no_crosshair env hexColor self) as Hnone.
  rewrite H3 in Hnone. unfold trace in Hnone. simpl in Hnone.
  pose proof (_applyThroughSettings_raised env hexColor self) as Hraised.
  assert (∀ pre, t3 = pre ++ Invoke c true :: post →
            crosshair_call c = false ∧ post = [settings_failure] ∧ b3 = false)
    as Hsplit.
  { intros pre' Hpre. specialize (Hraised pre' c post).
    rewrite H3 in Hraised. unfold trace, result in Hraised. simpl in Hraised.
    destruct (Hraised Hpre) as (? & ? & ?). by simplify_eq. }
  clear Hraised.
  destruct (reticle_controller env) as [ctl|] eqn:Hctl.
  - destruct (setOverrideReticleColor ctl) as [m|] eqn:Hm;
      [|destruct (setReticleColor ctl) as [m|] eqn:Hm'].
    + rewrite (_applyGunMarkerColor_call env hexColor self ctl m
                 (c_setOverrideReticleColor hexColor) Hctl) by (left; done).
      rewrite H3. unfold trace, result.
      destruct (m hexColor) as [[]|e]; simpl; intros H.
      { split_trace. }
      destruct pre as [|? [|? pre]]; simpl in H; simplify_eq; simpl.
      * by exists b3.
      * destruct (Hsplit pre eq_refl) as (-> & -> & ->). by exists false.
    + rewrite (_applyGunMarkerColor_call env hexColor self ctl m
                 (c_setReticleColor hexColor) Hctl) by (right; done).
      rewrite H3. unfold trace, result.
      destruct (m hexColor) as [[]|e]; simpl; intros H.
      { split_trace. }
      destruct pre as [|? [|? pre]]; simpl in H; simplify_eq; simpl.
      * by exists b3.
      * destruct (Hsplit pre eq_refl) as (-> & -> & ->). by exists false.
    + rewrite _applyGunMarkerColor_fallback by (rewrite Hctl; done).
      rewrite H3. unfold trace, result. simpl. intros ->.
      destruct (Hsplit pre eq_refl) as (-> & -> & ->). by exists false.
  - rewrite _applyGunMarkerColor_fallback by (rewrite Hctl; done).
    rewrite H3. unfold trace, result. simpl. intros ->.
    destruct (Hsplit pre eq_refl) as (-> & -> & ->). by exists false.
Qed.


Lemma backend_exception_caught_witness :
  trace (_applyGunMarkerColor
           (env_with (Some modern_raises) (Some (settings_holding VNone)))
           (VStr "#00FFDE") (Controller_init sample_config))
  = [] ++ Invoke (c_setOverrideReticleColor (VStr "#00FFDE")) true
       :: crosshair_failure :: settings_calls VNone ∧
  ∃ b, result (_applyGunMarkerColor
                 (env_with (Some modern_raises) (Some (settings_holding VNone)))
                 (VStr "#00FFDE") (Controller_init sample_config)) = Ok b.
Proof.
  split; [reflexivity|].
  destruct (backend_exception_caught
              (env_with (Some modern_raises) (Some (settings_holding VNone)))
              (VStr "#00FFDE") (Controller_init sample_config)
              [] (c_setOverrideReticleColor (VStr "#00FFDE"))
              (crosshair_failure :: settings_calls VNone) eq_refl)
    as (b & Hb & _).
  exists b. exact Hb.
Defined.

(** C1 fails as stated: here the crosshair controller has both methods and
    the modern one raises.  The exception is caught and logged, but the
    legacy method is not tried: the attempt goes straight to the settings
    fallback. *)
Lemma legacy_skipped_counterexample :
  setReticleColor modern_raises = Some working ∧
  _applyGunMarkerColor
    (env_with (Some modern_raises) (Some (settings_holding VNone)))
    (VStr "#00FFDE") (Controller_init sample_config)
  = (Ok true, Controller_init sample_config,
     Invoke (c_setOverrideReticleColor (VStr "#00FFDE")) true
       :: crosshair_failure :: settings_calls VNone) ∧
  existsb strategy2
    (trace (_applyGunMarkerColor
              (env_with (Some modern_raises) (Some (settings_holding VNone)))
              (VStr "#00FFDE") (Controller_init sample_config))) = false.
Proof. repeat split. Qed.

(** C10.  Let the colour setting be reachable and hold a system value [v]
    that is not a mapping, and let its two setters return.  Then the
    settings fallback hands that same [v] to [setSystemValue], calls
    [apply()] and returns [True], and these are its only calls; so every
    apply attempt in such an environment reports success and clears
    [pendingUpdate].  When no crosshair controller is reachable the whole
    attempt consists of those calls: the colour asked for is in none of
    them. *)
Theorem settings_fallback_non_mapping env self core opts setting v :
  settingsCore env = Some core →
  options core = Ok (Some opts) →
  getSetting opts = Ok (Some setting) →
  getSystemValue setting = Ok v →
  (∀ d, v ≠ VDict d) →
  setSystemValue setting v = Ok tt →
  apply setting = Ok tt →
  (∀ hexColor,
     _applyThroughSettings env hexColor self = (Ok true, self, settings_calls v)) ∧
  _pendingUpdate (final (applyCurrentColor env self)) = false ∧
  (reticle_controller env = None →
   applyCurrentColor env self
   = (Ok tt, set_pendingUpdate false self, settings_calls v)).
Proof.
  intros Hcore Hopts Hset Hget Hv Hput Happly.
  assert (∀ hexColor,
            _applyThroughSettings env hexColor self
            = (Ok true, self, settings_calls v)) as H3.
  { intros hexColor. unfold _applyThroughSettings. unfold_monad.
    rewrite Hcore, Hopts. simpl. rewrite Hset. simpl. rewrite Hget. simpl.
    destruct v as [| | | | |d]; try (by rewrite Hput, Happly).
    by destruct (Hv d). }
  assert (∃ tr, _applyGunMarkerColor env (currentColor self) self
                = (Ok true, self, tr)) as [tr Htr].
  { destruct (reticle_controller env) as [ctl|] eqn:Hctl.
    - destruct (setOverrideReticleColor ctl) as [m|] eqn:Hm;
        [|destruct (setReticleColor ctl) as [m|] eqn:Hm'].
      + rewrite (_applyGunMarkerColor_call env _ self ctl m
                   (c_setOverrideReticleColor (currentColor self)) Hctl)
          by (left; done).
        rewrite H3. destruct (m _); eauto.
      + rewrite (_applyGunMarkerColor_call env _ self ctl m
                   (c_setReticleColor (currentColor self)) Hctl)
          by (right; done).
        rewrite H3. destruct (m _); eauto.
      + rewrite _applyGunMarkerColor_fallback by (rewrite Hctl; done). eauto.
    - rewrite _applyGunMarkerColor_fallback by (rewrite Hctl; done). eauto. }
  split; [done|]. split.
  - by rewrite (applyCurrentColor_eq _ _ _ _ Htr).
  - intros Hnone.
    rewrite _applyGunMarkerColor_fallback in Htr by (rewrite Hnone; done).
    rewrite H3 in Htr. simplify_eq.
    rewrite (applyCurrentColor_eq env self true (settings_calls v)).
    + by rewrite app_nil_r.
    + rewrite _applyGunMarkerColor_fallback by (rewrite Hnone; done). done.
Qed.

Lemma settings_fallback_non_mapping_witness :
  (∀ d, VInt 7 ≠ VDict d) ∧
  applyCurrentColor (env_with None (Some (settings_holding (VInt 7))))
    (set_pendingUpdate true (Controller_init sample_config))
  = (Ok tt, Controller_init sample_config, settings_calls (VInt 7)).
Proof.
  split; [discriminate|].
  apply (settings_fallback_non_mapping
           (env_with None (Some (settings_holding (VInt 7))))
           (set_pendingUpdate true (Controller_init sample_config))
           (settings_holding (VInt 7))
           {| getSetting := Ok (Some (setting_holding (VInt 7))) |}
           (setting_holding (VInt 7)) (VInt 7)
           eq_refl eq_refl eq_refl eq_refl ltac:(discriminate) eq_refl eq_refl).
  reflexivity.
Defined.

(** C7.  While [enabled] is false, [toggle()] does nothing: it returns with
    the controller as it was ([useAlternate] and [pendingUpdate] included)
    and an empty trace, so no host object is called; and no apply attempt
    was made, since an apply attempt never has an empty trace. *)
Theorem toggle_disabled_noop env self :
  truthy (enabled (_config self)) = false →
  toggle env self = (Ok tt, self, []) ∧
  trace (applyCurrentColor env self) ≠ [].
Proof.
  intros He. split; [|apply applyCurrentColor_trace].
  unfold toggle. unfold_monad. by rewrite He.
Qed.

Lemma toggle_disabled_noop_witness :
  truthy (enabled (_config (Controller_init disabled_config))) = false ∧
  toggle (env_with None (Some (settings_holding VNone)))
    (Controller_init disabled_config)
  = (Ok tt, Controller_init disabled_config, []).
Proof.
  split; [reflexivity|].
  apply (toggle_disabled_noop (env_with None (Some (settings_holding VNone)))
           (Controller_init disabled_config)).
  reflexivity.
Defined.

(** Toggling [n] times while enabled: the configuration and the installed
    flag stay, and [useAlternate] has been flipped [n] times. *)
Lemma toggles_state envs self :
  truthy (enabled (_config self)) = true →
  result (toggles envs self) = Ok tt ∧
  _config (final (toggles envs self)) = _config self ∧
  _isInstalled (final (toggles envs self)) = _isInstalled self ∧
  _useAlternate (final (toggles envs self))
    = xorb (_useAlternate self) (Nat.odd (length envs)).
Proof.
  revert self. induction envs as [|env envs IH]; intros self He.
  { unfold toggles, result, final. simpl. by rewrite xorb_false_r. }
  destruct (_applyGunMarkerColor_total env (currentColor (toggled self)) (toggled self))
    as (b & tr & H).
  pose proof (toggle_enabled env self b tr He H) as Ht.
  unfold toggles in *. simpl for_each.
  rewrite (bind_ok _ _ _ _ _ _ Ht).
  specialize (IH (set_pendingUpdate (negb b) (toggled self)) He).
  destruct IH as (Hr & Hc & Hi & Hu).
  destruct (for_each envs toggle _) as [[r s] t].
  unfold result, final in *. simpl in *. subst r.
  repeat split; try done.
  rewrite Hu. change (length (env :: envs)) with (S (length envs)).
  rewrite Nat.odd_succ, <- Nat.negb_odd.
  by destruct (_useAlternate self), (Nat.odd (length envs)).
Qed.

(** C4.  Take any run of toggles made while [enabled] is true and look at
    the N-th one.  It flips [useAlternate] to [seed xor odd N] -- true iff N
    is odd for a controller seeded false, iff N is even for one seeded true
    -- and it hands the backend chain [alternateColor] when that flag is
    true and [baseColor] otherwise.  The flag has that value after the
    toggle whether the chain reported success or not. *)
Theorem toggle_parity (envs : list Env) (env : Env) (self : Controller) :
  truthy (enabled (_config self)) = true →
  let N := S (length envs) in
  let before := final (toggles envs self) in
  let alt := xorb (_useAlternate self) (Nat.odd N) in
  let color :=
    if alt then alternateColor (_config self) else baseColor (_config self) in
  ∃ applied tr,
    _applyGunMarkerColor env color (set_useAlternate alt before)
      = (Ok applied, set_useAlternate alt before, tr) ∧
    toggle env before
      = (Ok tt, set_pendingUpdate (negb applied) (set_useAlternate alt before),
         toggle_note alt :: tr ++ if applied then [] else deferred) ∧
    _useAlternate (final (toggle env before)) = alt.
Proof.
  intros He N before alt color.
  destruct (toggles_state envs self He) as (_ & Hc & _ & Hu).
  fold before in Hc, Hu.
  assert (negb (_useAlternate before) = alt) as Halt.
  { rewrite Hu. unfold alt, N. rewrite Nat.odd_succ, <- Nat.negb_odd.
    by destruct (_useAlternate self), (Nat.odd (length envs)). }
  assert (toggled before = set_useAlternate alt before) as Htg.
  { unfold toggled. by rewrite Halt. }
  assert (currentColor (toggled before) = color) as Hcol.
  { rewrite Htg. unfold currentColor, color. simpl. by rewrite Hc. }
  destruct (_applyGunMarkerColor_total env color (toggled before))
    as (b & tr & H).
  assert (truthy (enabled (_config before)) = true) as He' by by rewrite Hc.
  rewrite <- Hcol in H.
  pose proof (toggle_enabled env before b tr He' H) as Ht.
  rewrite Hcol, Htg in H. rewrite Halt, Htg in Ht.
  exists b, tr. rewrite Ht. done.
Qed.

Lemma toggle_parity_witness :
  truthy (enabled (_config (Controller_init sample_config))) = true ∧
  ∃ applied tr,
    toggle bare_env
      (final (toggles [bare_env; env_with None None] (Controller_init sample_config)))
    = (Ok tt,
       set_pendingUpdate (negb applied)
         (set_useAlternate true
            (final (toggles [bare_env; env_with None None]
                      (Controller_init sample_config)))),
       toggle_note true :: tr ++ if applied then [] else deferred).
Proof.
  split; [reflexivity|].
  destruct (toggle_parity [bare_env; env_with None None] bare_env
              (Controller_init sample_config) eq_refl)
    as (applied & tr & _ & H & _).
  exists applied, tr. exact H.
Defined.

(** C2.  An apply attempt always returns, with a verdict [applied], and it
    leaves [pendingUpdate] equal to the negation of that verdict: set when
    every strategy failed, cleared when one went through.  The next
    [onAvatarReady()] then is exactly one [applyCurrentColor()] when the flag
    is set, and nothing at all when it is clear; after that retry the flag is
    again the negation of the retry's verdict. *)
Theorem pending_retry (env env' : Env) (self : Controller) :
  ∃ applied tr,
    _applyGunMarkerColor env (currentColor self) self = (Ok applied, self, tr) ∧
    let after := final (applyCurrentColor env self) in
    _pendingUpdate after = negb applied ∧
    onAvatarReady env' after
      = (if applied then (Ok tt, after, []) else applyCurrentColor env' after) ∧
    ∃ applied' tr',
      _applyGunMarkerColor env' (currentColor after) after
        = (Ok applied', after, tr') ∧
      _pendingUpdate (final (applyCurrentColor env' after)) = negb applied'.
Proof.
  destruct (_applyGunMarkerColor_total env (currentColor self) self)
    as (b & tr & H).
  exists b, tr. split; [done|].
  rewrite (applyCurrentColor_eq _ _ _ _ H).
  change (final (Ok (), set_pendingUpdate (negb b) self,
                 tr ++ (if b then [] else deferred)))
    with (set_pendingUpdate (negb b) self).
  cbv zeta. split; [done|]. split.
  - unfold onAvatarReady. unfold_monad. simpl. destruct b; simpl; [done|].
    by destruct (applyCurrentColor _ _) as [[??]?].
  - destruct (_applyGunMarkerColor_total env'
                (currentColor (set_pendingUpdate (negb b) self))
                (set_pendingUpdate (negb b) self)) as (b' & tr' & H').
    exists b', tr'. split; [done|].
    by rewrite (applyCurrentColor_eq _ _ _ _ H').
Qed.
End ControllerProperties.

(** ** Right-click hook *)

Section HookProperties.
Import RightClickHook.
Variable KEY_RIGHTMOUSE : Z.
Variable control_modes : string → option cls.
Variable native : fn → obj → option MouseEvent → res value.
Variable env : Env.

(** [__shouldToggle] computes the classification of the specification; it
    never raises and logs exactly when the inspection raised. *)
Lemma __shouldToggle_spec {S} (event : option MouseEvent) (s : S) :
  __shouldToggle KEY_RIGHTMOUSE event s
  = (Ok (is_press KEY_RIGHTMOUSE event), s, inspection_log event).
Proof.
  unfold __shouldToggle, is_press, inspection_log. unfold_monad.
  destruct event as [ev|]; [|done].
  destruct (isButtonDown ev) as [[down|e]|]; simpl; [|done..].
  by destruct (truthy down).
Qed.

Lemma toggle_total self :
  ∃ self' tr, ReticleColorController.toggle env self = (Ok tt, self', tr) ∧
              existsb handler_call tr = false.
Proof.
  unfold ReticleColorController.toggle, ReticleColorController.applyCurrentColor,
    ReticleColorController._applyGunMarkerColor,
    ReticleColorController._applyThroughSettings.
  unfold_monad. case_answers; eauto.
Qed.

(** C6.  Classify the event as [__shouldToggle] does.  If it is a press of
    the toggle button and the controller behind the weak reference is
    alive, the wrapper runs [toggle()] on that controller and returns
    [True]; the run does not depend on the original method and contains no
    call of a host handler.  In every other case -- also for a press when the
    controller is gone -- the wrapper is the original method called on the
    same instance and event: same result, same final world, and the same
    trace after the log line of an inspection that raised. *)
Theorem wrapper_behaviour (original : method) (instance : obj)
    (event : option MouseEvent) (w : World) :
  match is_press KEY_RIGHTMOUSE event, __controllerRef w with
  | true, Some controller =>
      call_method KEY_RIGHTMOUSE native env (Wrapper original) instance event w
      = (Ok (VBool true),
         set_controllerRef
           (Some (final (ReticleColorController.toggle env controller))) w,
         trace (ReticleColorController.toggle env controller)) ∧
      existsb handler_call
        (trace (call_method KEY_RIGHTMOUSE native env (Wrapper original)
                  instance event w)) = false
  | _, _ =>
      call_method KEY_RIGHTMOUSE native env (Wrapper original) instance event w
      = let '(r, w', tr) :=
          call_method KEY_RIGHTMOUSE native env original instance event w in
        (r, w', inspection_log event ++ tr)
  end.
Proof.
  simpl call_method.
  rewrite (bind_ok _ _ _ _ _ _ (__shouldToggle_spec event w)).
  destruct (is_press KEY_RIGHTMOUSE event) eqn:Hpress.
  - assert (inspection_log event = []) as ->.
    { unfold is_press in Hpress. unfold inspection_log.
      destruct event as [ev|]; [|done]. by destruct (isButtonDown ev) as [[]|]. }
    destruct (__controllerRef w) as [controller|] eqn:Href.
    + destruct (toggle_total controller) as (self' & tr & Ht & Hno).
      unfold_monad. rewrite Href, Ht. unfold final, trace. simpl.
      by rewrite !app_nil_r.
    + unfold_monad. rewrite Href. simpl.
      by destruct (call_method _ _ _ original instance event w) as [[[]?]?].
  - unfold_monad. simpl.
    destruct (call_method _ _ _ original instance event w) as [[[]?]?];
      by destruct (__controllerRef w).
Qed.

Variable ancestors : cls → list cls.

Lemma install_unfold :
  install control_modes ancestors
  = for_each (named_classes control_modes) (install_step ancestors).
Proof. reflexivity. Qed.

Lemma uninstall_unfold (w : World) :
  uninstall ancestors w
  = (for_each (__patchedClasses w) (uninstall_step ancestors) ;;
     modify (set_patchedClasses [])) w.
Proof.
  unfold uninstall. rewrite (bind_ok get _ w w w [] eq_refl).
  by destruct ((for_each _ _ ≫= _) w) as [[??]?].
Qed.

(** [hasattr(c, 'handleMouseEvent')]: some class in the resolution order of
    [c] has the attribute in its own dictionary. *)
Lemma resolve_is_Some (w : World) (c : cls) :
  is_Some (resolve ancestors w c) ↔
  ∃ a, a ∈ c :: ancestors c ∧ is_Some (handleMouseEvent w !! a).
Proof.
  unfold resolve. generalize (c :: ancestors c) as l.
  induction l as [|a l IH]; simpl.
  - split; [by intros []|]. intros (a & Ha & _). by apply elem_of_nil in Ha.
  - destruct (handleMouseEvent w !! a) as [m|] eqn:Ha; simpl.
    + split; [|by eauto]. intros _. exists a. split; [by left|by rewrite Ha].
    + rewrite IH. split.
      * intros (b & Hb & Hs). exists b. split; [by right|done].
      * intros (b & [->|Hb]%elem_of_cons & Hs); [|by eauto].
        rewrite Ha in Hs. by destruct Hs.
Qed.

(** The dictionary of the class itself comes first. *)
Lemma resolve_own (w : World) (c : cls) (m : method) :
  handleMouseEvent w !! c = Some m → resolve ancestors w c = Some m.
Proof. intros H. unfold resolve. simpl. by rewrite H. Qed.

Lemma resolve_None (w : World) (c : cls) :
  resolve ancestors w c = None ↔ ¬ is_Some (resolve ancestors w c).
Proof. destruct (resolve ancestors w c); split; try done. by intros []; eauto. Qed.

(** Writing the attribute of a class that has it, own or inherited, gives no
    class an attribute it did not have and takes none away. *)
Lemma write_keeps_hasattr (w : World) (c : cls) (m : method) (x : cls) :
  closed_order ancestors →
  is_Some (resolve ancestors w c) →
  is_Some (resolve ancestors (set_handleMouseEvent c m w) x) ↔
  is_Some (resolve ancestors w x).
Proof.
  intros Hclosed Hc. rewrite !resolve_is_Some. simpl. split.
  - intros (a & Ha & Hs). destruct (decide (a = c)) as [->|Hne].
    + apply resolve_is_Some in Hc as (b & Hb & Hbs). exists b. split; [|done].
      apply elem_of_cons in Ha as [->|Ha]; [done|].
      apply elem_of_cons in Hb as [->|Hb]; [by right|].
      right. by apply (Hclosed x c Ha b).
    + rewrite lookup_insert_ne in Hs by done. by eauto.
  - intros (a & Ha & Hs). exists a. split; [done|].
    destruct (decide (a = c)) as [->|Hne];
      [by rewrite lookup_insert_eq|by rewrite lookup_insert_ne].
Qed.

(** One round of the loop of [install()]. *)
Lemma install_step_run (c : cls) (w : World) :
  (install_step ancestors c w = (Ok tt, w, []) ∧
   (resolve ancestors w c = None ∨ c ∈ __patchedClasses w)) ∨
  (∃ original,
     resolve ancestors w c = Some original ∧ (c ∉ __patchedClasses w) ∧
     install_step ancestors c w
     = (Ok tt,
        set_patchedClasses (__patchedClasses w ++ [c])
          (set_handleMouseEvent c (Wrapper original) w), [])).
Proof.
  unfold install_step. unfold_monad.
  destruct (resolve ancestors w c) as [original|] eqn:Hc; [|left; by eauto].
  case_bool_decide as Hin; [left; by eauto|]. right. by exists original.
Qed.

(** The loop of [install()] over any list of classes, from any world. *)
Lemma install_loop (l : list cls) (w : World) :
  closed_order ancestors →
  ∃ w', for_each l (install_step ancestors) w = (Ok tt, w', []) ∧
    __controllerRef w' = __controllerRef w ∧
    (NoDup (__patchedClasses w) → NoDup (__patchedClasses w')) ∧
    (∀ c, c ∈ __patchedClasses w → c ∈ __patchedClasses w') ∧
    (∀ x, is_Some (resolve ancestors w' x) ↔ is_Some (resolve ancestors w x)) ∧
    (∀ c, c ∈ __patchedClasses w →
          handleMouseEvent w' !! c = handleMouseEvent w !! c) ∧
    (∀ c, c ∉ __patchedClasses w' →
          handleMouseEvent w' !! c = handleMouseEvent w !! c) ∧
    (∀ c, c ∈ __patchedClasses w' → c ∉ __patchedClasses w →
          c ∈ l ∧ is_Some (resolve ancestors w c) ∧
          ∃ o, handleMouseEvent w' !! c = Some (Wrapper o) ∧
               ∀ m, handleMouseEvent w !! c = Some m → o = m) ∧
    (∀ c, c ∈ l → resolve ancestors w' c = None ∨ c ∈ __patchedClasses w').
Proof.
  intros Hclosed. revert w. induction l as [|c0 l IH]; intros w.
  { exists w. split; [done|]. split; [done|]. split; [done|]. split; [done|].
    split; [done|]. split; [done|]. split; [done|]. split; [done|].
    intros c Hc. by apply elem_of_nil in Hc. }
  simpl for_each.
  destruct (install_step_run c0 w) as [[H0 Hskip]|(o0 & Hres & Hnin & H0)];
    rewrite (bind_ok _ _ _ _ _ _ H0).
  - destruct (IH w) as (w' & H' & Href & Hnd & Hmono & Hhas & Hold & Hout & Hnew & Hreg).
    rewrite H'. exists w'. split; [done|]. split; [done|]. split; [done|].
    split; [done|]. split; [done|]. split; [done|]. split; [done|]. split.
    + intros c Hc Hn. destruct (Hnew c Hc Hn) as (Hl & ? & ?).
      split; [by right|done].
    + intros c [->|Hc]%elem_of_cons; [|by apply Hreg].
      destruct Hskip as [Hnone|Hin]; [|right; by apply Hmono].
      left. apply resolve_None. rewrite Hhas. by apply resolve_None.
  - set (w1 := set_patchedClasses (__patchedClasses w ++ [c0])
                 (set_handleMouseEvent c0 (Wrapper o0) w)) in *.
    destruct (IH w1) as (w' & H' & Href & Hnd & Hmono & Hhas & Hold & Hout & Hnew & Hreg).
    rewrite H'. exists w'. split; [done|]. split; [done|].
    assert (c0 ∈ __patchedClasses w1) as Hc0.
    { simpl. apply elem_of_app. right. by apply list_elem_of_singleton. }
    assert (∀ c, c ∈ __patchedClasses w → c ∈ __patchedClasses w1) as Hsub.
    { intros c Hc. simpl. apply elem_of_app. by left. }
    assert (∀ c, c ≠ c0 → handleMouseEvent w1 !! c = handleMouseEvent w !! c)
      as Hother.
    { intros c Hne. simpl. by rewrite lookup_insert_ne. }
    assert (∀ c, c ∈ __patchedClasses w1 → c ∉ __patchedClasses w → c = c0)
      as Hfresh.
    { intros c [?|?%list_elem_of_singleton]%elem_of_app ?; done. }
    split.
    { intros Hw. apply Hnd. simpl. apply NoDup_app. split; [done|].
      split; [|apply NoDup_singleton].
      intros x Hx ->%list_elem_of_singleton. done. }
    split; [intros c Hc; by apply Hmono, Hsub|].
    split.
    { intros x. rewrite Hhas.
      apply (write_keeps_hasattr w c0 (Wrapper o0) x Hclosed). by rewrite Hres. }
    split.
    { intros c Hc. rewrite (Hold c (Hsub c Hc)). apply Hother. by intros ->. }
    split.
    { intros c Hc. rewrite (Hout c Hc). apply Hother.
      intros ->. by apply Hc, Hmono. }
    split.
    { intros c Hc Hn. destruct (decide (c = c0)) as [->|Hne].
      - split; [by left|]. split; [by rewrite Hres|].
        exists o0. split.
        + rewrite (Hold c0 Hc0). simpl. by rewrite lookup_insert_eq.
        + intros m Hm. apply (resolve_own w c0 m) in Hm. congruence.
      - assert (c ∉ __patchedClasses w1) as Hn1.
        { intros Hin. by apply Hne, Hfresh. }
        destruct (Hnew c Hc Hn1) as (Hl & Hs & o & Ho & Hm).
        split; [by right|]. split.
        + apply (write_keeps_hasattr w c0 (Wrapper o0) c Hclosed) in Hs; [done|].
          by rewrite Hres.
        + exists o. split; [done|]. intros m Hm'. apply Hm.
          by rewrite (Hother c Hne). }
    intros c [->|Hc]%elem_of_cons; [right; by apply Hmono|by apply Hreg].
Qed.

(** The loop of [install()] changes nothing when every class of the list is
    registered already or has no handler. *)
Lemma install_loop_noop (l : list cls) (w : World) :
  (∀ c, c ∈ l → resolve ancestors w c = None ∨ c ∈ __patchedClasses w) →
  for_each l (install_step ancestors) w = (Ok tt, w, []).
Proof.
  induction l as [|c0 l IH]; intros Hall; [done|]. simpl for_each.
  destruct (install_step_run c0 w) as [[H0 _]|(o0 & Hres & Hnin & _)].
  - rewrite (bind_ok _ _ _ _ _ _ H0). rewrite IH; [done|].
    intros c Hc. apply Hall. by right.
  - destruct (Hall c0) as [Hnone|Hin]; [by left|congruence|done].
Qed.

(** A second [install()] finds nothing to do. *)
Lemma install_again (w : World) :
  closed_order ancestors →
  install control_modes ancestors (final (install control_modes ancestors w))
  = (Ok tt, final (install control_modes ancestors w), []).
Proof.
  intros Hclosed. rewrite install_unfold.
  destruct (install_loop (named_classes control_modes) w Hclosed)
    as (w' & H & _ & _ & _ & _ & _ & _ & _ & Hreg).
  rewrite H. unfold final. simpl. by apply install_loop_noop.
Qed.

(** The loop of [uninstall()] over classes that each have the attribute in
    their own dictionary: one layer of wrapping comes off each. *)
Lemma uninstall_loop (patched : list cls) (w : World) :
  NoDup patched →
  (∀ c, c ∈ patched → is_Some (handleMouseEvent w !! c)) →
  ∃ w', for_each patched (uninstall_step ancestors) w = (Ok tt, w', []) ∧
        __patchedClasses w' = __patchedClasses w ∧
        __controllerRef w' = __controllerRef w ∧
        ∀ c, handleMouseEvent w' !! c
             = (if bool_decide (c ∈ patched)
                then strip <$> handleMouseEvent w !! c
                else handleMouseEvent w !! c).
Proof.
  revert w. induction patched as [|c0 patched IH]; intros w Hnd Hown.
  { exists w. do 3 (split; [done|]). intros c.
    by rewrite bool_decide_false by apply not_elem_of_nil. }
  apply NoDup_cons in Hnd as [Hc0 Hnd]. simpl for_each.
  assert (∃ w1, uninstall_step ancestors c0 w = (Ok tt, w1, []) ∧
            __patchedClasses w1 = __patchedClasses w ∧
            __controllerRef w1 = __controllerRef w ∧
            handleMouseEvent w1 !! c0 = strip <$> handleMouseEvent w !! c0 ∧
            ∀ c, c ≠ c0 → handleMouseEvent w1 !! c = handleMouseEvent w !! c)
    as (w1 & H1 & Hp & Hr & Hat & Hother).
  { destruct (Hown c0) as [h Hh]; [by left|].
    unfold uninstall_step. unfold_monad.
    rewrite (resolve_own w c0 h Hh). rewrite Hh.
    destruct h as [f|original]; simpl.
    - exists w. do 3 (split; [done|]). split; [by rewrite Hh|done].
    - eexists. split; [done|]. do 2 (split; [done|]). simpl. split.
      + by rewrite lookup_insert_eq.
      + intros c Hne. by rewrite lookup_insert_ne. }
  rewrite (bind_ok _ _ _ _ _ _ H1).
  destruct (IH w1 Hnd) as (w' & H' & Hp' & Hr' & Hh').
  { intros c Hc. rewrite Hother; [apply Hown; by right|]. by intros ->. }
  rewrite H'. exists w'. split; [done|]. split; [congruence|].
  split; [congruence|]. intros c. rewrite (Hh' c).
  destruct (decide (c = c0)) as [->|Hne].
  - rewrite bool_decide_false by done.
    by rewrite bool_decide_true by (by left).
  - rewrite (Hother c Hne).
    destruct (decide (c ∈ patched)) as [Hin|Hin].
    + rewrite !bool_decide_true; [done|by right|done].
    + rewrite !bool_decide_false; [done| |done].
      by intros [?|?]%elem_of_cons.
Qed.








End HookProperties.

Lemma family_ancestors_closed : closed_order family_ancestors.
Proof.
  intros c a Ha b Hb. unfold family_ancestors in *.
  destruct (Nat.eqb c 4); [|by apply elem_of_nil in Ha].
  apply list_elem_of_singleton in Ha. subst a. simpl in Hb.
  by apply elem_of_nil in Hb.
Qed.


(** ** Configuration store *)

Section StoreProperties.

Lemma _ensureConfigDirectory_eq {S} (io : IO) (s : S) :
  _ensureConfigDirectory io s = (Ok tt, s, directory_trace io).
Proof.
  unfold _ensureConfigDirectory, directory_trace. unfold_monad.
  destruct (isdir io); [done|]. by destruct (makedirs io) as [[]|].
Qed.

(** Loading a document that is a mapping lays its recognised keys over the
    slots and never raises. *)
Lemma load_mapping (io : IO) (cfg : ModConfig) (d : gmap string value) :
  load io {| config := cfg; disk := Document (VDict d) |}
  = (Ok tt, {| config := overlay d cfg; disk := Document (VDict d) |},
     directory_trace io).
Proof.
  unfold load. rewrite (bind_ok _ _ _ _ _ _ (_ensureConfigDirectory_eq io _)).
  unfold overlay. unfold_monad. simpl.
  destruct (d !! "enabled"), (d !! "baseColor"), (d !! "alternateColor"),
    (d !! "startWithAlternateColor"); simpl; rewrite ?app_nil_r; by destruct cfg.
Qed.

(** A missing file and a file that cannot be read or parsed leave the slots
    as they are; the second is logged. *)
Lemma load_degrades (io : IO) (cfg : ModConfig) (f : file) :
  f = Missing ∨ (∃ e, f = Unreadable e) →
  result (load io {| config := cfg; disk := f |}) = Ok tt ∧
  final (load io {| config := cfg; disk := f |}) = {| config := cfg; disk := f |}.
Proof.
  intros Hf. unfold load.
  rewrite (bind_ok _ _ _ _ _ _ (_ensureConfigDirectory_eq io _)).
  unfold_monad. by destruct Hf as [->|[e ->]].
Qed.

Lemma ModConfig_init_eq (io : IO) (fresh : ModConfig) (f : file) :
  ModConfig_init io {| config := fresh; disk := f |}
  = load io {| config := defaults; disk := f |}.
Proof.
  unfold ModConfig_init. unfold_monad. simpl.
  by destruct (load io _) as [[??]?].
Qed.

Lemma save_eq (io : IO) (cfg : ModConfig) (old : file) :
  raised (open_w io) = false →
  raised (dump io) = false →
  save io {| config := cfg; disk := old |}
  = (Ok tt, {| config := cfg; disk := Document (VDict (asDict cfg)) |},
     directory_trace io).
Proof.
  intros Ho Hd. unfold save.
  rewrite (bind_ok _ _ _ _ _ _ (_ensureConfigDirectory_eq io _)).
  unfold write_json. unfold_monad. simpl.
  destruct (open_w io) as [[]|]; [|done]. destruct (dump io) as [[]|]; [|done].
  simpl. by rewrite !app_nil_r.
Qed.

Lemma overlay_asDict (cfg base : ModConfig) : overlay (asDict cfg) base = cfg.
Proof. by destruct cfg. Qed.

Lemma getattr_overlay (d : gmap string value) (base : ModConfig) (k : string) :
  k ∈ KEYS →
  getattr (overlay d base) k = default (getattr base k) (d !! k).
Proof.
  intros Hk. apply list_elem_of_In in Hk. simpl in Hk.
  by destruct Hk as [<-|[<-|[<-|[<-|[]]]]].
Qed.

(** C8.  Let [save()] write the slots [cfg] on a disk that takes the write.
    A fresh store built from what is then on disk has exactly the slots
    [cfg], and building it does not raise.  And a fresh store built from a
    document that is a mapping with every recognised key but [k] has the
    default in slot [k] and, in every other slot, the value the document
    gives for it. *)
Theorem config_roundtrip (io io' : IO) (cfg fresh : ModConfig) (old : file)
    (d : gmap string value) (k : string) :
  raised (open_w io) = false →
  raised (dump io) = false →
  k ∈ KEYS →
  d !! k = None →
  (∀ k', k' ∈ KEYS → k' ≠ k → is_Some (d !! k')) →
  (let written := disk (final (save io {| config := cfg; disk := old |})) in
   ModConfig_init io' {| config := fresh; disk := written |}
   = (Ok tt, {| config := cfg; disk := written |}, directory_trace io')) ∧
  (let built :=
     ModConfig_init io' {| config := fresh; disk := Document (VDict d) |} in
   result built = Ok tt ∧
   getattr (config (final built)) k = getattr defaults k ∧
   ∀ k', k' ∈ KEYS → k' ≠ k → d !! k' = Some (getattr (config (final built)) k')).
Proof.
  intros Ho Hd Hk Hnone Hsome. split.
  - rewrite (save_eq io cfg old Ho Hd). unfold final. simpl.
    rewrite ModConfig_init_eq, load_mapping. by rewrite overlay_asDict.
  - cbv zeta. rewrite ModConfig_init_eq, load_mapping.
    unfold result, final. simpl. split; [done|]. split.
    + by rewrite (getattr_overlay d defaults k Hk), Hnone.
    + intros k' Hk' Hne. destruct (Hsome k' Hk' Hne) as [v Hv].
      by rewrite (getattr_overlay d defaults k' Hk'), Hv.
Qed.

Lemma config_roundtrip_witness :
  "baseColor" ∈ KEYS ∧
  partial_document !! "baseColor" = None ∧
  ModConfig_init good_io
    {| config := disabled_config;
       disk := disk (final (save good_io
                              {| config := disabled_config; disk := Missing |})) |}
  = (Ok tt,
     {| config := disabled_config;
        disk := disk (final (save good_io
                               {| config := disabled_config; disk := Missing |})) |},
     directory_trace good_io).
Proof.
  assert ("baseColor" ∈ KEYS) as Hk by (apply list_elem_of_In; simpl; tauto).
  assert (∀ k', k' ∈ KEYS → k' ≠ "baseColor" → is_Some (partial_document !! k'))
    as Hothers.
  { intros k' Hk' Hne. apply list_elem_of_In in Hk'. simpl in Hk'.
    destruct Hk' as [<-|[<-|[<-|[<-|[]]]]]; try done; by eexists. }
  split; [exact Hk|]. split; [reflexivity|].
  apply (config_roundtrip good_io good_io disabled_config disabled_config Missing
           partial_document "baseColor" eq_refl eq_refl Hk eq_refl Hothers).
Defined.

(** C9, at the input where the code breaks it: a file holding the JSON
    document [null] (or a boolean, or an integer) is read and parsed without
    error, and the membership test [key in data] of the overlay loop, which
    is outside the [try] block, then raises [TypeError] out of [load] and
    out of the constructor. *)
Theorem load_raises_on_scalar (io : IO) (cfg : ModConfig) (data : value) :
  data = VNone ∨ (∃ b, data = VBool b) ∨ (∃ n, data = VInt n) →
  load io {| config := cfg; disk := Document data |}
  = (Raise "TypeError", {| config := cfg; disk := Document data |},
     directory_trace io) ∧
  result (ModConfig_init io {| config := cfg; disk := Document data |})
  = Raise "TypeError".
Proof.
  intros Hdata.
  assert (∀ c, load io {| config := c; disk := Document data |}
               = (Raise "TypeError", {| config := c; disk := Document data |},
                  directory_trace io)) as Hload.
  { intros c. unfold load.
    rewrite (bind_ok _ _ _ _ _ _ (_ensureConfigDirectory_eq io _)).
    unfold_monad.
    destruct Hdata as [->|[[b ->]|[n ->]]]; simpl; by rewrite !app_nil_r. }
  split; [apply Hload|]. by rewrite ModConfig_init_eq, Hload.
Qed.

Lemma load_raises_on_scalar_witness :
  result (ModConfig_init good_io {| config := defaults; disk := Document VNone |})
  = Raise "TypeError".
Proof.
  apply (load_raises_on_scalar good_io defaults VNone). by left.
Defined.

(** The same defect on documents that are a string or a list: when the text
    contains a recognised key, or the list has one as an element, the
    membership test holds and the subscript [data[key]] raises. *)
Lemma load_raises_on_string_and_list :
  result (load good_io {| config := defaults;
                          disk := Document (VStr "not enabled") |})
  = Raise "TypeError" ∧
  result (load good_io {| config := defaults;
                          disk := Document (VList [VStr "baseColor"]) |})
  = Raise "TypeError".
Proof. split; reflexivity. Qed.
End StoreProperties.

(** ** The code on concrete inputs *)

(** The end-to-end run of the specification: the first install applies the
    base colour, a right-button press the alternate one, a second press the
    base colour again. *)
Example install_then_two_presses :
  let env := env_with (Some modern_works) None in
  let c0 := Controller_init sample_config in
  let c1 := final (ReticleColorController.install env c0) in
  let c2 := final (ReticleColorController.toggle env c1) in
  trace (ReticleColorController.install env c0)
  = [Invoke (c_setOverrideReticleColor (VStr "#FFCC00")) false] ∧
  trace (ReticleColorController.toggle env c1)
  = [toggle_note true; Invoke (c_setOverrideReticleColor (VStr "#00FFDE")) false] ∧
  trace (ReticleColorController.toggle env c2)
  = [toggle_note false; Invoke (c_setOverrideReticleColor (VStr "#FFCC00")) false].
Proof. repeat split. Qed.

(** Nothing reachable: the attempt is deferred and no host object is
    called; a later [onAvatarReady()] on an old client goes through the
    legacy method and clears the flag. *)
Example deferred_then_applied :
  let c0 := Controller_init sample_config in
  let c1 := final (ReticleColorController.applyCurrentColor bare_env c0) in
  ReticleColorController.applyCurrentColor bare_env c0
  = (Ok tt, set_pendingUpdate true c0, deferred) ∧
  ReticleColorController.onAvatarReady (env_with (Some legacy_only) None) c1
  = (Ok tt, c0, [Invoke (c_setReticleColor (VStr "#FFCC00")) false]).
Proof. repeat split. Qed.

(** The settings fallback on a per-context mapping overwrites the colour of
    every context. *)
Example fallback_overwrites_mapping :
  trace (ReticleColorController._applyThroughSettings
           (env_with None
              (Some (settings_holding
                       (VDict (<["arcade" := VStr "#111111"]>
                                 (<["sniper" := VStr "#222222"]> ∅))))))
           (VStr "#00FFDE") (Controller_init sample_config))
  = settings_calls (VDict (<["arcade" := VStr "#00FFDE"]>
                             (<["sniper" := VStr "#00FFDE"]> ∅))).
Proof. vm_compute. reflexivity. Qed.

(** Two names of the host that denote one class wrap it once; a class the
    host does not name is left alone. *)
Example install_on_sample_world :
  final (RightClickHook.install sample_modes no_ancestors sample_world)
  = {| __patchedClasses := [1%nat; 2%nat];
       handleMouseEvent :=
         <[1%nat := Wrapper (Native 10%nat)]>
           (<[2%nat := Wrapper (Native 20%nat)]> (<[3%nat := Native 30%nat]> ∅));
       __controllerRef := Some (Controller_init sample_config) |}.
Proof. vm_compute. reflexivity. Qed.

(** A right-button press on a patched class toggles and is consumed; a
    release reaches the host's handler. *)
Example dispatch_on_sample_world :
  let w := final (RightClickHook.install sample_modes no_ancestors sample_world) in
  let host := λ (_ : fn) (_ : obj) (_ : option MouseEvent), Ok (VBool false) in
  RightClickHook.dispatch 257 host bare_env no_ancestors 1%nat 7%nat
    (Some right_down) w
  = (Ok (VBool true),
     set_controllerRef
       (Some (set_pendingUpdate true (toggled (Controller_init sample_config)))) w,
     toggle_note true :: deferred) ∧
  RightClickHook.dispatch 257 host bare_env no_ancestors 1%nat 7%nat
    (Some right_up) w
  = (Ok (VBool false), w,
     [Invoke (c_handleMouseEvent 10%nat 7%nat (Some right_up)) false]) ∧
  RightClickHook.dispatch 257 host bare_env no_ancestors 1%nat 7%nat
    (Some left_down) w
  = (Ok (VBool false), w,
     [Invoke (c_handleMouseEvent 10%nat 7%nat (Some left_down)) false]).
Proof. vm_compute. repeat split. Qed.

(** A named class that inherits its handler from a named class wrapped
    before it: [install()] captures the parent's wrapper and puts a wrapper
    of it into the dictionary of the subclass; [uninstall()] puts the
    captured method back, so the subclass is left with the parent's wrapper
    in its own dictionary, and a right-button press on one of its instances
    still toggles. *)
Example install_with_inheritance :
  let installed :=
    final (RightClickHook.install family_modes family_ancestors family_world) in
  let removed := final (RightClickHook.uninstall family_ancestors installed) in
  let host := λ (_ : fn) (_ : obj) (_ : option MouseEvent), Ok (VBool false) in
  __patchedClasses installed = [1%nat; 2%nat; 4%nat] ∧
  handleMouseEvent installed !! 2%nat = Some (Wrapper (Native 20%nat)) ∧
  handleMouseEvent installed !! 4%nat = Some (Wrapper (Wrapper (Native 20%nat))) ∧
  handleMouseEvent removed !! 2%nat = Some (Native 20%nat) ∧
  handleMouseEvent removed !! 4%nat = Some (Wrapper (Native 20%nat)) ∧
  handleMouseEvent family_world !! 4%nat = None ∧
  result (RightClickHook.dispatch 257 host bare_env family_ancestors 4%nat 7%nat
            (Some right_down) removed) = Ok (VBool true) ∧
  final (RightClickHook.install family_modes family_ancestors removed) = installed.
Proof. vm_compute. repeat split. Qed.

(** A document with one recognised key missing and one key unknown. *)
Example load_partial_document :
  config (final (ModConfig_init good_io
                   {| config := defaults; disk := Document (VDict partial_document) |}))
  = {| enabled := VBool false; baseColor := VStr "#FFCC00";
       alternateColor := VStr "#112233"; startWithAlternateColor := VBool true |}.
Proof. vm_compute. reflexivity. Qed.

(** * Further properties of the code *)

(** ** Configuration store *)

Section StoreExtras.

(** [save()] in closed form. *)
Lemma save_run (io : IO) (st : Store) :
  save io st
  = (Ok tt,
     {| config := config st;
        disk := if raised (open_w io) then disk st
                else if raised (dump io) then Unreadable "ValueError"
                else Document (VDict (asDict (config st))) |},
     directory_trace io ++
     (if raised (open_w io) || raised (dump io) then [save_failure] else [])).
Proof.
  unfold save. rewrite (bind_ok _ _ _ _ _ _ (_ensureConfigDirectory_eq io _)).
  unfold write_json. unfold_monad. destruct st as [cfg f]. simpl.
  destruct (open_w io) as [[]|]; simpl; [|done].
  destruct (dump io) as [[]|]; simpl; by rewrite ?app_nil_r.
Qed.

(** X1.  [save()] never raises and never changes a slot.  When the file
    cannot be opened for writing it is left as it was; when it was opened
    and the dump fails, what is left on disk cannot be read; in both cases
    the failure is logged once.  Otherwise the file holds the four slots. *)
Theorem save_best_effort (io : IO) (st : Store) :
  result (save io st) = Ok tt ∧
  config (final (save io st)) = config st ∧
  disk (final (save io st))
  = (if raised (open_w io) then disk st
     else if raised (dump io) then Unreadable "ValueError"
     else Document (VDict (asDict (config st)))) ∧
  trace (save io st)
  = directory_trace io ++
    (if raised (open_w io) || raised (dump io) then [save_failure] else []).
Proof. by rewrite save_run. Qed.

(** X2.  A dump that fails destroys the settings that were on disk: the
    next store built from the disk has the defaults, neither the slots that
    were being saved nor those of the earlier document. *)
Theorem failed_dump_loses_document (io io' : IO) (st : Store) (fresh : ModConfig) :
  raised (open_w io) = false →
  raised (dump io) = true →
  ModConfig_init io' {| config := fresh; disk := disk (final (save io st)) |}
  = (Ok tt, {| config := defaults; disk := Unreadable "ValueError" |},
     directory_trace io' ++ [read_failure]).
Proof.
  intros Ho Hd. rewrite save_run. unfold final. simpl.
  rewrite Ho, Hd. rewrite ModConfig_init_eq. unfold load.
  rewrite (bind_ok _ _ _ _ _ _ (_ensureConfigDirectory_eq io' _)).
  by unfold_monad.
Qed.

Lemma failed_dump_loses_document_witness :
  config (final (ModConfig_init good_io
    {| config := disabled_config;
       disk := disk (final (save dump_fails_io
                 {| config := disabled_config;
                    disk := Document (VDict (asDict disabled_config)) |})) |}))
  = defaults.
Proof.
  rewrite (failed_dump_loses_document dump_fails_io good_io
             {| config := disabled_config;
                disk := Document (VDict (asDict disabled_config)) |}
             disabled_config eq_refl eq_refl).
  reflexivity.
Defined.

(** X3.  A store built when the file is missing, or cannot be read or
    parsed, has exactly the defaults and the constructor returns; only the
    second case is logged. *)
Theorem fresh_store_defaults (io : IO) (fresh : ModConfig) (f : file) :
  (∀ data, f ≠ Document data) →
  ModConfig_init io {| config := fresh; disk := f |}
  = (Ok tt, {| config := defaults; disk := f |},
     directory_trace io ++
     match f with Unreadable _ => [read_failure] | _ => [] end).
Proof.
  intros Hf. rewrite ModConfig_init_eq. unfold load.
  rewrite (bind_ok _ _ _ _ _ _ (_ensureConfigDirectory_eq io _)).
  unfold_monad. destruct f as [|e|data]; simpl; [done..|].
  by destruct (Hf data).
Qed.

Lemma fresh_store_defaults_witness :
  ModConfig_init open_fails_io
    {| config := disabled_config; disk := Unreadable "ValueError" |}
  = (Ok tt, {| config := defaults; disk := Unreadable "ValueError" |},
     directory_trace open_fails_io ++ [read_failure]).
Proof.
  apply (fresh_store_defaults open_fails_io disabled_config
           (Unreadable "ValueError")).
  discriminate.
Defined.

(** X4.  [load()] reads the four recognised keys and nothing else: two
    documents that agree on them leave the same slots. *)
Theorem load_ignores_unknown_keys (io : IO) (cfg : ModConfig)
    (d d' : gmap string value) :
  (∀ k, k ∈ KEYS → d !! k = d' !! k) →
  config (final (load io {| config := cfg; disk := Document (VDict d) |}))
  = config (final (load io {| config := cfg; disk := Document (VDict d') |})).
Proof.
  intros Hagree. rewrite !load_mapping. unfold final, overlay. simpl.
  assert (∀ k, In k KEYS → d !! k = d' !! k) as Hin.
  { intros k Hk. apply Hagree. by apply list_elem_of_In. }
  simpl in Hin.
  rewrite (Hin "enabled"), (Hin "baseColor"), (Hin "alternateColor"),
    (Hin "startWithAlternateColor") by tauto.
  done.
Qed.

Lemma load_ignores_unknown_keys_witness :
  config (final (load good_io
                   {| config := defaults; disk := Document (VDict partial_document) |}))
  = config (final (load good_io
                     {| config := defaults;
                        disk := Document (VDict (delete "theme" partial_document)) |})).
Proof.
  apply (load_ignores_unknown_keys good_io defaults partial_document
           (delete "theme" partial_document)).
  intros k Hk. apply list_elem_of_In in Hk. simpl in Hk.
  destruct Hk as [<-|[<-|[<-|[<-|[]]]]]; reflexivity.
Defined.

(** X6.  Loading is idempotent: when [load()] returns, a second [load()] of
    the same file, whatever the directory answers then, returns too and
    leaves every slot as the first one left it. *)
Theorem load_idempotent (io io' : IO) (st : Store) :
  result (load io st) = Ok tt →
  result (load io' (final (load io st))) = Ok tt ∧
  final (load io' (final (load io st))) = final (load io st).
Proof.
  destruct st as [cfg f].
  assert (∀ d, f = Document (VDict d) →
            result (load io' (final (load io {| config := cfg; disk := f |})))
            = Ok tt ∧
            final (load io' (final (load io {| config := cfg; disk := f |})))
            = final (load io {| config := cfg; disk := f |})) as Hdict.
  { intros d ->. rewrite load_mapping. unfold final at 1 2 3. simpl.
    rewrite load_mapping. unfold result, final. simpl. split; [done|].
    f_equal. unfold overlay. simpl.
    by destruct (d !! "enabled"), (d !! "baseColor"), (d !! "alternateColor"),
      (d !! "startWithAlternateColor"). }
  destruct f as [|e|[| | |s|l|d]]; [..|intros _; by apply (Hdict d)]; clear Hdict;
    unfold load; unfold_monad;
    rewrite !_ensureConfigDirectory_eq; unfold result, final; simpl;
    rewrite ?_ensureConfigDirectory_eq;
    repeat (unfold_monad; simpl); try done.
  - repeat match goal with
           | |- context [str_contains ?k s] =>
               destruct (str_contains k s) eqn:?; simpl; try done
           end;
      rewrite ?_ensureConfigDirectory_eq; simpl; intros _;
      repeat match goal with
             | H : str_contains _ s = false |- _ => rewrite H; clear H
             end;
      done.
  - repeat match goal with
           | |- context [existsb ?k l] =>
               destruct (existsb k l) eqn:?; simpl; try done
           end;
      rewrite ?_ensureConfigDirectory_eq; simpl; intros _;
      repeat match goal with
             | H : existsb _ l = false |- _ => rewrite H; clear H
             end;
      done.
Qed.

Lemma load_idempotent_witness :
  final (load open_fails_io
           (final (load good_io
                     {| config := defaults;
                        disk := Document (VDict partial_document) |})))
  = final (load good_io
             {| config := defaults; disk := Document (VDict partial_document) |}).
Proof.
  apply (load_idempotent good_io open_fails_io
           {| config := defaults; disk := Document (VDict partial_document) |}).
  reflexivity.
Defined.
End StoreExtras.

(** ** Colour controller *)

Section ControllerExtras.
Import ReticleColorController.

(** X7.  [install()] leaves the controller installed, and a second
    [install()], in whatever environment, does nothing: no apply attempt, no
    call, no change. *)
Theorem controller_install_once (env env' : Env) (self : Controller) :
  _isInstalled (final (install env self)) = true ∧
  install env' (final (install env self)) = (Ok tt, final (install env self), []).
Proof.
  assert (∀ s, _isInstalled s = true → install env' s = (Ok tt, s, [])) as Hdone.
  { intros s Hs. unfold install. unfold_monad. by rewrite Hs. }
  assert (_isInstalled (final (install env self)) = true) as Hi.
  { unfold install. unfold_monad.
    destruct (_isInstalled self) eqn:Hs; [done|]. simpl.
    destruct (truthy (enabled (_config self))); [|done].
    destruct (_applyGunMarkerColor_total env
                (currentColor (set_isInstalled true self))
                (set_isInstalled true self)) as (b & tr & H).
    by rewrite (applyCurrentColor_eq _ _ _ _ H). }
  split; [done|]. by apply Hdone.
Qed.

(** X8.  [uninstall()] only clears the installed flag: it calls nothing and
    keeps the toggle position and the pending flag, so no colour is taken
    back.  The next [install()] then is a first install again: one apply
    attempt if the mod is enabled, none otherwise. *)
Theorem reinstall_reapplies (env : Env) (self : Controller) :
  uninstall self = (Ok tt, set_isInstalled false self, []) ∧
  install env (final (uninstall self))
  = (if truthy (enabled (_config self))
     then applyCurrentColor env (set_isInstalled true self)
     else (Ok tt, set_isInstalled true self, [])).
Proof.
  split; [done|]. unfold install, uninstall, final. unfold_monad. simpl.
  destruct (truthy (enabled (_config self))); [|done].
  change (set_isInstalled true (set_isInstalled false self))
    with (set_isInstalled true self).
  by destruct (applyCurrentColor env _) as [[??]?].
Qed.

Lemma refreshFromConfig_eq (env : Env) (cfg : ModConfig) (self : Controller) :
  refreshFromConfig env cfg self
  = applyCurrentColor env
      {| _config := cfg;
         _useAlternate := truthy (startWithAlternateColor cfg);
         _isInstalled := _isInstalled self;
         _pendingUpdate := _pendingUpdate self |}.
Proof.
  unfold refreshFromConfig. unfold_monad. simpl.
  unfold set_useAlternate, set_config. simpl.
  by destruct (applyCurrentColor env _) as [[[]?]?].
Qed.

(** X9.  [refreshFromConfig(cfg)] drops the toggle position: it is one apply
    attempt on the controller re-seeded from [cfg], with the alternate
    colour iff [startWithAlternateColor] is truthy.  It does not look at
    [enabled]: the attempt is made for a disabled configuration too. *)
Theorem refresh_reseeds (env : Env) (cfg : ModConfig) (self : Controller) :
  let seeded :=
    {| _config := cfg;
       _useAlternate := truthy (startWithAlternateColor cfg);
       _isInstalled := _isInstalled self;
       _pendingUpdate := _pendingUpdate self |} in
  refreshFromConfig env cfg self = applyCurrentColor env seeded ∧
  trace (refreshFromConfig env cfg self) ≠ [] ∧
  _config (final (refreshFromConfig env cfg self)) = cfg ∧
  _useAlternate (final (refreshFromConfig env cfg self))
  = truthy (startWithAlternateColor cfg).
Proof.
  intros seeded.
  pose proof (refreshFromConfig_eq env cfg self) as Heq. fold seeded in Heq.
  rewrite Heq. split; [done|]. split; [apply applyCurrentColor_trace|].
  destruct (_applyGunMarkerColor_total env (currentColor seeded) seeded)
    as (b & tr & H).
  by rewrite (applyCurrentColor_eq _ _ _ _ H).
Qed.

(** X10.  The verdict of an apply attempt is [True] exactly when one of the
    calls that push the colour -- a crosshair method or [apply()] of the
    setting -- returned; and at most one such call returns in an attempt. *)
Theorem verdict_iff_completed (env : Env) (hexColor : value) (self : Controller) :
  result (_applyGunMarkerColor env hexColor self)
  = Ok (existsb completes (trace (_applyGunMarkerColor env hexColor self))) ∧
  (length (filter (λ e, completes e = true)
             (trace (_applyGunMarkerColor env hexColor self))) ≤ 1)%nat.
Proof.
  unfold _applyGunMarkerColor, _applyThroughSettings, result, trace.
  unfold_monad. case_answers; split; simpl; done || lia.
Qed.

(** X11.  On a client whose crosshair controller has the legacy method
    only, that method is the first call of the attempt.  When it returns it
    is the only call and the attempt succeeds; when it raises, the exception
    is logged and the attempt is the settings fallback. *)
Theorem legacy_path (env : Env) (hexColor : value) (self : Controller)
    (c : Crosshair) (m : value → res unit) :
  reticle_controller env = Some c →
  setOverrideReticleColor c = None →
  setReticleColor c = Some m →
  _applyGunMarkerColor env hexColor self
  = (if raised (m hexColor) then
       let '(r, s, t) := _applyThroughSettings env hexColor self in
       (r, s, Invoke (c_setReticleColor hexColor) true :: crosshair_failure :: t)
     else (Ok true, self, [Invoke (c_setReticleColor hexColor) false])).
Proof.
  intros Hc Hmodern Hlegacy.
  rewrite (_applyGunMarkerColor_call env hexColor self c m
             (c_setReticleColor hexColor) Hc) by (right; done).
  by destruct (m hexColor).
Qed.

Lemma legacy_path_witness :
  _applyGunMarkerColor (env_with (Some legacy_raises) (Some (settings_holding VNone)))
    (VStr "#FFCC00") (Controller_init sample_config)
  = (Ok true, Controller_init sample_config,
     Invoke (c_setReticleColor (VStr "#FFCC00")) true
       :: crosshair_failure :: settings_calls VNone).
Proof.
  rewrite (legacy_path (env_with (Some legacy_raises) (Some (settings_holding VNone)))
             (VStr "#FFCC00") (Controller_init sample_config)
             legacy_raises failing eq_refl eq_refl eq_refl).
  reflexivity.
Defined.

(** X12.  When the system value of the colour setting is a mapping and the
    two setters return, the settings fallback writes back a mapping with the
    same keys in which every value is the colour asked for, calls [apply()]
    and succeeds.  An empty mapping is written back empty. *)
Theorem settings_fallback_mapping (env : Env) (hexColor : value) (self : Controller)
    (core : SettingsCore) (opts : Options) (setting : ColorSetting)
    (d : gmap string value) :
  settingsCore env = Some core →
  options core = Ok (Some opts) →
  getSetting opts = Ok (Some setting) →
  getSystemValue setting = Ok (VDict d) →
  raised (setSystemValue setting (VDict (const hexColor <$> d))) = false →
  raised (apply setting) = false →
  ∃ d', _applyThroughSettings env hexColor self
        = (Ok true, self, settings_calls (VDict d')) ∧
        dom d' = dom d ∧
        (∀ k v, d' !! k = Some v → v = hexColor) ∧
        (d = ∅ → d' = ∅).
Proof.
  intros Hcore Hopts Hset Hget Hput Happly.
  exists (const hexColor <$> d). split; [|split; [|split]].
  - unfold _applyThroughSettings. unfold_monad.
    rewrite Hcore, Hopts. simpl. rewrite Hset. simpl. rewrite Hget. simpl.
    destruct (setSystemValue setting _) as [[]|]; [|done].
    by destruct (apply setting) as [[]|].
  - apply dom_fmap_L.
  - intros k v. rewrite lookup_fmap. destruct (d !! k); simpl; congruence.
  - intros ->. apply fmap_empty.
Qed.

Lemma settings_fallback_mapping_witness :
  ∃ d', _applyThroughSettings
          (env_with None (Some (settings_holding (VDict {["arcade" := VStr "#111111"]}))))
          (VStr "#00FFDE") (Controller_init sample_config)
        = (Ok true, Controller_init sample_config, settings_calls (VDict d')) ∧
        dom d' = dom ({["arcade" := VStr "#111111"]} : gmap string value).
Proof.
  destruct (settings_fallback_mapping
              (env_with None (Some (settings_holding (VDict {["arcade" := VStr "#111111"]}))))
              (VStr "#00FFDE") (Controller_init sample_config)
              (settings_holding (VDict {["arcade" := VStr "#111111"]}))
              {| getSetting := Ok (Some (setting_holding
                                           (VDict {["arcade" := VStr "#111111"]}))) |}
              (setting_holding (VDict {["arcade" := VStr "#111111"]}))
              {["arcade" := VStr "#111111"]}
              eq_refl eq_refl eq_refl eq_refl eq_refl eq_refl)
    as (d' & Hrun & Hdom & _).
  exists d'. split; [exact Hrun|exact Hdom].
Defined.
End ControllerExtras.

(** ** Right-click hook *)

Section HookExtras.
Import RightClickHook.
Variable KEY_RIGHTMOUSE : Z.
Variable control_modes : string → option cls.
Variable native : fn → obj → option MouseEvent → res value.
Variable env : Env.

(** X14.  [__shouldToggle] never raises and changes nothing.  It answers
    [True] exactly for an event that is not [None], whose [isButtonDown()]
    returns a truthy value, and whose [button] attribute -- or, only when
    there is no [button] attribute, whose [key] attribute -- equals
    [KEY_RIGHTMOUSE].  It logs exactly when [isButtonDown()] raised. *)
Theorem shouldToggle_classifies {S} (event : option MouseEvent) (s : S) :
  ∃ b, __shouldToggle KEY_RIGHTMOUSE event s = (Ok b, s, inspection_log event) ∧
       (b = true ↔
        ∃ ev down, event = Some ev ∧ isButtonDown ev = Some (Ok down) ∧
                   truthy down = true ∧
                   eq_int (match button ev with
                           | Some v => v
                           | None => default VNone (key ev)
                           end) KEY_RIGHTMOUSE = true).
Proof.
  exists (is_press KEY_RIGHTMOUSE event). split; [apply __shouldToggle_spec|].
  unfold is_press. split.
  - destruct event as [ev|]; [|done].
    destruct (isButtonDown ev) as [[down|]|] eqn:Hd; [|done..].
    intros [Ht Hk]%andb_true_iff. exists ev, down.
    repeat split; try done; by destruct (button ev).
  - intros (ev & down & -> & -> & -> & Hk). simpl. by destruct (button ev).
Qed.

Variable ancestors : cls → list cls.

(** X15.  [install()] on any world, under the resolution orders of a class
    hierarchy, returns and logs nothing.  It registers exactly the classes
    the host names that have a handler, own or inherited, and were not
    registered; it puts a wrapper into the dictionary of each class it
    registers -- a wrapper of the class's own method when it had one -- and
    leaves the dictionary entry of every other class as it was; and no
    class gains or loses the attribute. *)
Theorem hook_install_characterised (w : World) :
  closed_order ancestors →
  ∃ w', install control_modes ancestors w = (Ok tt, w', []) ∧
        __controllerRef w' = __controllerRef w ∧
        (∀ x, is_Some (resolve ancestors w' x) ↔ is_Some (resolve ancestors w x)) ∧
        ∀ c,
          (c ∈ __patchedClasses w' ↔
           c ∈ __patchedClasses w ∨
           (c ∈ named_classes control_modes ∧ is_Some (resolve ancestors w c))) ∧
          (if bool_decide (c ∈ __patchedClasses w' ∧ (c ∉ __patchedClasses w))
           then ∃ o, handleMouseEvent w' !! c = Some (Wrapper o) ∧
                     ∀ m, handleMouseEvent w !! c = Some m → o = m
           else handleMouseEvent w' !! c = handleMouseEvent w !! c).
Proof.
  intros Hclosed. rewrite install_unfold.
  destruct (install_loop ancestors (named_classes control_modes) w Hclosed)
    as (w' & H & Href & _ & Hmono & Hhas & Hold & Hout & Hnew & Hreg).
  exists w'. split; [done|]. split; [done|]. split; [done|]. intros c. split.
  - split.
    + intros Hc. destruct (decide (c ∈ __patchedClasses w)) as [?|Hn];
        [by left|right].
      destruct (Hnew c Hc Hn) as (? & ? & _). done.
    + intros [Hc|[Hc Hs]]; [by apply Hmono|].
      destruct (Hreg c Hc) as [Hnone|?]; [|done].
      apply (resolve_None ancestors) in Hnone. exfalso. apply Hnone. by apply Hhas.
  - case_bool_decide as Hcase.
    + destruct Hcase as [Hc Hn]. destruct (Hnew c Hc Hn) as (_ & _ & o & Ho).
      by exists o.
    + destruct (decide (c ∈ __patchedClasses w')) as [Hc|Hc]; [|by apply Hout].
      destruct (decide (c ∈ __patchedClasses w)) as [Hc'|Hc']; [by apply Hold|].
      by destruct Hcase.
Qed.


(** X16.  A second [install()] changes nothing: no class is wrapped twice
    and none is registered twice, whatever the world the first one started
    from and whatever the named classes inherit from one another. *)
Theorem hook_install_once (w : World) :
  closed_order ancestors →
  install control_modes ancestors (final (install control_modes ancestors w))
  = (Ok tt, final (install control_modes ancestors w), []).
Proof. apply install_again. Qed.


(** X17.  Take a world whose registration list has no class twice and in
    which every registered class has the handler in its own dictionary, as
    [install()] leaves it.  [uninstall()] returns, logs nothing and empties
    the list; in the dictionary of every registered class it takes one
    layer of wrapping off the handler, leaving a handler that is a function
    of the host as it is; and it writes the dictionary of no other class. *)
Theorem hook_uninstall_strips (w : World) :
  NoDup (__patchedClasses w) →
  (∀ c, c ∈ __patchedClasses w → is_Some (handleMouseEvent w !! c)) →
  ∃ w', uninstall ancestors w = (Ok tt, w', []) ∧
        __patchedClasses w' = [] ∧
        __controllerRef w' = __controllerRef w ∧
        ∀ c, handleMouseEvent w' !! c
             = (if bool_decide (c ∈ __patchedClasses w)
                then strip <$> handleMouseEvent w !! c
                else handleMouseEvent w !! c).
Proof.
  intros Hnd Hown.
  destruct (uninstall_loop ancestors (__patchedClasses w) w Hnd Hown)
    as (w2 & H2 & _ & Hr2 & Hh2).
  rewrite uninstall_unfold. rewrite (bind_ok _ _ _ _ _ _ H2).
  unfold_monad. simpl. eexists. split; [done|]. by repeat split.
Qed.


(** X18.  An event that is not a right-button press, and any event once the
    controller is gone, goes through every layer of wrapping to the function
    of the host at the bottom: the call returns or raises what that function
    does, on the same instance and event, and the world is unchanged.  Each
    layer inspects the event again, so an inspection that raises is logged
    once per layer. *)
Theorem passthrough (m : method) (instance : obj) (event : option MouseEvent)
    (w : World) :
  intercepted KEY_RIGHTMOUSE event w = false →
  call_method KEY_RIGHTMOUSE native env m instance event w
  = (native (innermost m) instance event, w,
     concat (replicate (depth m) (inspection_log event)) ++
     [Invoke (c_handleMouseEvent (innermost m) instance event)
        (raised (native (innermost m) instance event))]).
Proof.
  intros Hno. induction m as [f|original IH]; [done|].
  simpl call_method.
  rewrite (bind_ok _ _ _ _ _ _ (__shouldToggle_spec KEY_RIGHTMOUSE event w)).
  assert ((if is_press KEY_RIGHTMOUSE event
           then w0 ← get;
                match __controllerRef w0 with
                | Some controller =>
                    zoom (λ _, controller) (λ c, set_controllerRef (Some c))
                      (ReticleColorController.toggle env) ;;
                    mret (Some (VBool true))
                | None => mret None
                end
           else mret None) w = (Ok None, w, [])) as Hfall.
  { unfold intercepted in Hno. destruct (is_press KEY_RIGHTMOUSE event); [|done].
    unfold_monad. destruct (__controllerRef w); [done|done]. }
  rewrite (bind_ok _ _ _ _ _ _ Hfall). rewrite IH. simpl.
  by rewrite <- app_assoc.
Qed.
End HookExtras.

Lemma hook_install_characterised_witness :
  ∃ w', RightClickHook.install family_modes family_ancestors family_world = (Ok tt, w', []) ∧
        (is_Some (RightClickHook.resolve family_ancestors w' 4%nat) ↔
         is_Some (RightClickHook.resolve family_ancestors family_world 4%nat)).
Proof.
  destruct (hook_install_characterised family_modes family_ancestors family_world
              family_ancestors_closed) as (w' & Hrun & _ & Hhas & _).
  exists w'. split; [exact Hrun|exact (Hhas 4%nat)].
Defined.

Lemma hook_install_once_witness :
  RightClickHook.install family_modes family_ancestors
    (final (RightClickHook.install family_modes family_ancestors family_world))
  = (Ok tt, final (RightClickHook.install family_modes family_ancestors family_world), []).
Proof.
  apply (hook_install_once family_modes family_ancestors family_world).
  exact family_ancestors_closed.
Defined.

Lemma hook_uninstall_strips_witness :
  ∃ w', RightClickHook.uninstall family_ancestors
          (final (RightClickHook.install family_modes family_ancestors family_world))
        = (Ok tt, w', []) ∧
        handleMouseEvent w' !! 4%nat = Some (Wrapper (Native 20%nat)).
Proof.
  assert (NoDup (__patchedClasses
                   (final (RightClickHook.install family_modes family_ancestors family_world))))
    as Hnd.
  { apply (bool_decide_unpack _). vm_compute. exact I. }
  assert (∀ c, c ∈ __patchedClasses
                     (final (RightClickHook.install family_modes family_ancestors family_world)) →
               is_Some (handleMouseEvent
                          (final (RightClickHook.install family_modes family_ancestors family_world))
                        !! c)) as Hown.
  { intros c Hc. apply list_elem_of_In in Hc. vm_compute in Hc.
    destruct Hc as [<-|[<-|[<-|[]]]]; vm_compute; eauto. }
  destruct (hook_uninstall_strips family_ancestors
              (final (RightClickHook.install family_modes family_ancestors family_world))
              Hnd Hown) as (w' & Hrun & _ & _ & Hat).
  exists w'. split; [exact Hrun|]. exact (eq_trans (Hat 4%nat) eq_refl).
Defined.

Lemma passthrough_witness :
  RightClickHook.call_method 257 (λ _ _ _, Raise "ValueError") bare_env
    (Wrapper (Wrapper (Native 10%nat))) 7%nat (Some right_down)
    (set_controllerRef None sample_world)
  = (Raise "ValueError", set_controllerRef None sample_world,
     [Invoke (c_handleMouseEvent 10%nat 7%nat (Some right_down)) true]).
Proof.
  apply (passthrough 257 (λ _ _ _, Raise "ValueError") bare_env
           (Wrapper (Wrapper (Native 10%nat))) 7%nat (Some right_down)
           (set_controllerRef None sample_world)).
  reflexivity.
Defined.

(** ** Entry point *)

Section EntryExtras.
Import ModEntryPoint.

(** The overlay loop of [__onSettingsChanged] on a mapping: the recognised
    keys of [d] are laid over the shared configuration object. *)
Lemma settings_overlay (d : gmap string value) (self : EntryPoint) :
  for_each (DEFAULT_CONFIG.*1) (λ k,
    present ← lift (py_contains k (VDict d));
    if present : bool then
      v ← lift (py_getitem (VDict d) k);
      modify (setattr_shared k v)
    else mret tt) self
  = (Ok tt,
     {| _store := on_config (overlay d) (_store self);
        _controller :=
          set_config (overlay d (_config (_controller self))) (_controller self) |},
     []).
Proof.
  destruct self as [[cfg f] [ccfg ua inst pend]]. destruct cfg, ccfg.
  unfold overlay. simpl. unfold_monad. simpl.
  by destruct (d !! "enabled"), (d !! "baseColor"), (d !! "alternateColor"),
    (d !! "startWithAlternateColor").
Qed.

(** [__onSettingsChanged] on a mapping, in closed form. *)
Lemma settings_changed_run (io : IO) (env : Env) (d : gmap string value)
    (self : EntryPoint) (applied : bool) (tr : list event) :
  let cfg' := overlay d (config (_store self)) in
  let seeded :=
    {| _config := cfg';
       _useAlternate := truthy (startWithAlternateColor cfg');
       _isInstalled := _isInstalled (_controller self);
       _pendingUpdate := _pendingUpdate (_controller self) |} in
  ReticleColorController._applyGunMarkerColor env (currentColor seeded) seeded
    = (Ok applied, seeded, tr) →
  __onSettingsChanged io env (VDict d) self
  = (Ok tt,
     {| _store := final (save io (on_config (overlay d) (_store self)));
        _controller := set_pendingUpdate (negb applied) seeded |},
     trace (save io (on_config (overlay d) (_store self))) ++
     tr ++ if applied then [] else deferred).
Proof.
  intros cfg' seeded Happly. unfold __onSettingsChanged.
  rewrite (bind_ok _ _ _ _ _ _ (settings_overlay d self)).
  unfold zoom. unfold_monad. simpl.
  rewrite save_run. simpl.
  rewrite refreshFromConfig_eq. simpl.
  pose proof (applyCurrentColor_eq _ _ _ _ Happly) as Hcur.
  unfold seeded, cfg' in Hcur. simpl in Hcur. rewrite Hcur.
  unfold final, trace. simpl. reflexivity.
Qed.

(** X19.  A commit payload that is not a mapping is dropped: nothing is
    overlaid, nothing is saved, the controller is not refreshed and no host
    object is called. *)
Theorem settings_change_rejects_non_mapping (io : IO) (env : Env) (data : value)
    (self : EntryPoint) :
  (∀ d, data ≠ VDict d) →
  __onSettingsChanged io env data self = (Ok tt, self, []).
Proof.
  intros Hd. unfold __onSettingsChanged.
  destruct data as [| | | | |d]; try done. by destruct (Hd d).
Qed.

Lemma settings_change_rejects_non_mapping_witness :
  __onSettingsChanged good_io (env_with (Some modern_works) None)
    (VList [VStr "enabled"]) sample_entry
  = (Ok tt, sample_entry, []).
Proof.
  apply (settings_change_rejects_non_mapping good_io
           (env_with (Some modern_works) None) (VList [VStr "enabled"])
           sample_entry).
  discriminate.
Defined.

(** X20.  A commit payload that is a mapping: its recognised keys are laid
    over the slots, also when the save then fails; the controller gets the
    new slots, its toggle position is reset to [startWithAlternateColor],
    and one apply attempt is made with the colour that position selects,
    whose verdict sets the pending flag.  (The reads of the session provider
    that come before the backend calls are taken to return, as the
    environment has them.) *)
Theorem settings_change_applies (io : IO) (env : Env) (d : gmap string value)
    (self : EntryPoint) :
  let cfg' := overlay d (config (_store self)) in
  let after := final (__onSettingsChanged io env (VDict d) self) in
  config (_store after) = cfg' ∧
  _config (_controller after) = cfg' ∧
  _useAlternate (_controller after) = truthy (startWithAlternateColor cfg') ∧
  _isInstalled (_controller after) = _isInstalled (_controller self) ∧
  ∃ applied tr,
    ReticleColorController._applyGunMarkerColor env
      (if truthy (startWithAlternateColor cfg') then alternateColor cfg'
       else baseColor cfg')
      (_controller after)
    = (Ok applied, _controller after, tr) ∧
    _pendingUpdate (_controller after) = negb applied ∧
    trace (__onSettingsChanged io env (VDict d) self)
    = trace (save io (on_config (overlay d) (_store self))) ++
      tr ++ if applied then [] else deferred.
Proof.
  intros cfg' after.
  set (seeded :=
    {| _config := cfg';
       _useAlternate := truthy (startWithAlternateColor cfg');
       _isInstalled := _isInstalled (_controller self);
       _pendingUpdate := _pendingUpdate (_controller self) |}).
  destruct (_applyGunMarkerColor_total env (currentColor seeded) seeded)
    as (applied & tr & Happly).
  pose proof (settings_changed_run io env d self applied tr Happly) as Hrun.
  unfold after. rewrite Hrun. unfold result, final, trace. simpl.
  rewrite save_run. simpl. do 4 (split; [done|]).
  exists applied, tr. split; [|done].
  apply (_applyGunMarkerColor_state _ _ _ _ _ _ Happly).
Qed.

(** X21.  Settings committed through the window and saved on a disk that
    takes the write are the settings of the next session: a store built
    from the disk afterwards has the slots the entry point holds, which are
    the slots its controller reads. *)
Theorem settings_survive_restart (io io' : IO) (env : Env)
    (d : gmap string value) (self : EntryPoint) (fresh : ModConfig) :
  raised (open_w io) = false →
  raised (dump io) = false →
  let after := final (__onSettingsChanged io env (VDict d) self) in
  ∃ tr, ModConfig_init io' {| config := fresh; disk := disk (_store after) |}
        = (Ok tt, {| config := config (_store after); disk := disk (_store after) |},
           tr) ∧
        config (_store after) = _config (_controller after).
Proof.
  intros Ho Hd after.
  set (seeded :=
    {| _config := overlay d (config (_store self));
       _useAlternate :=
         truthy (startWithAlternateColor (overlay d (config (_store self))));
       _isInstalled := _isInstalled (_controller self);
       _pendingUpdate := _pendingUpdate (_controller self) |}).
  destruct (_applyGunMarkerColor_total env (currentColor seeded) seeded)
    as (applied & tr & Happly).
  pose proof (settings_changed_run io env d self applied tr Happly) as Hrun.
  unfold after. rewrite Hrun. unfold final. simpl.
  rewrite save_run. simpl. rewrite Ho, Hd. simpl.
  exists (directory_trace io'). split; [|done].
  rewrite ModConfig_init_eq, load_mapping. by rewrite overlay_asDict.
Qed.

Lemma settings_survive_restart_witness :
  ∃ tr, ModConfig_init good_io
          {| config := defaults;
             disk := disk (_store (final (__onSettingsChanged good_io bare_env
                                            (VDict partial_document) sample_entry))) |}
        = (Ok tt,
           {| config := config (_store (final (__onSettingsChanged good_io bare_env
                                          (VDict partial_document) sample_entry)));
              disk := disk (_store (final (__onSettingsChanged good_io bare_env
                                          (VDict partial_document) sample_entry))) |},
           tr).
Proof.
  destruct (settings_survive_restart good_io good_io bare_env partial_document
              sample_entry defaults eq_refl eq_refl) as (tr & Hrun & _).
  exists tr. exact Hrun.
Defined.
End EntryExtras.
